(** * Nutrition bot: the free-text food parser and the daily ledger

    A shallow embedding of [src/main.py]: the parser [parse_food_entry]
    with its regular expressions, the in-memory ledger [daily_data] with
    the handlers that change it ([handle_food_message], [add_food],
    [undo], [midnight_reset]), and the properties the specification
    states about them.

    Numbers.  The program computes with Python numbers: [float] values
    produced by [float(...)] and arithmetic on them, and a few [int]
    constants (the initial totals 0, the default quantity 100, the unit
    weights).  The embedding is written over an interface [Number] with
    two instances: [float_Number], IEEE binary64 with round to nearest
    even, which is what the program runs on, and [Qc_Number], exact
    rational arithmetic, which is what a reading of the specification
    in the reals assumes.

    Text.  Strings are [string]s of 8-bit characters; the model covers
    messages written in ASCII.  Character classes ([\s], [\d], [\w],
    [str.lower], [str.strip]) follow Python on the code points 0..127
    and treat the others as ordinary symbols.

    The catalog.  The module [foods_database] is imported by the
    program and is not among its sources here: its tables and its
    lookup are parameters of the definitions that use them.

    The clock.  A handler takes what it reads from the clock as an
    argument. *)

From Stdlib Require Import ZArith QArith Qcanon PrimFloat Uint63 FloatOps.
From Stdlib Require Import Ascii String List Bool Lia.
From stdpp Require Import gmap strings list fin_maps.

Local Open Scope string_scope.
Local Open Scope list_scope.

(** ** Numbers *)

Class Number (A : Type) := {
  (** a Python [int] taking part in float arithmetic *)
  num_of_Z : Z -> A;
  (** [float("d...d.f...f")]: [num_of_decimal m k] is the value of the
      digit string whose digits (separator removed) read [m] and which
      has [k] digits after the separator, that is m / 10^k *)
  num_of_decimal : N -> nat -> A;
  num_add : A -> A -> A;
  num_sub : A -> A -> A;
  num_mul : A -> A -> A;
  num_div : A -> A -> A;
  (** [x <= y] *)
  num_leb : A -> A -> bool;
  (** [bool(x)], false exactly for zero *)
  num_truthy : A -> bool
}.

(** Arithmetic in which a subtraction undoes the addition before it. *)
Class ExactCancel (A : Type) `{Number A} : Prop :=
  add_sub_cancel : forall x y : A, num_sub (num_add x y) y = x.

Module Binary64.

(** [num / den] rounded to the nearest integer, ties to even. *)
Definition round_half_even (num den : Z) : Z :=
  let m := (num / den)%Z in
  match (2 * (num mod den) ?= den)%Z with
  | Lt => m
  | Gt => (m + 1)%Z
  | Eq => if Z.even m then m else (m + 1)%Z
  end.

(** The binary64 nearest to p / q for p >= 0 and q > 0: the exponent
    [e] is chosen so that p / (q * 2^e) lies in [2^52, 2^53) (or is
    the least exponent -1074 for subnormal results), the significand
    is rounded to an integer and scaled back exactly. *)
Definition of_ratio (p q : Z) : float :=
  if (p <=? 0)%Z then PrimFloat.zero else
  let scaled (e : Z) : Z * Z :=
    if (0 <=? e)%Z then (p, q * 2 ^ e)%Z else (p * 2 ^ (- e), q)%Z in
  let e1 := (Z.log2 p - Z.log2 q - 52)%Z in
  let e2 := let '(n, d) := scaled e1 in
            if (n / d <? 2 ^ 52)%Z then (e1 - 1)%Z else e1 in
  let e := Z.max e2 (-1074) in
  let '(n, d) := scaled e in
  Z.ldexp (PrimFloat.of_uint63 (Uint63.of_Z (round_half_even n d))) e.

Definition of_Z (z : Z) : float :=
  if (z <? 0)%Z then PrimFloat.opp (of_ratio (- z) 1) else of_ratio z 1.

Definition of_decimal (m : N) (k : nat) : float :=
  of_ratio (Z.of_N m) (10 ^ Z.of_nat k).

Definition truthy (x : float) : bool := negb (PrimFloat.eqb x PrimFloat.zero).

End Binary64.

#[export] Instance float_Number : Number float := {
  num_of_Z := Binary64.of_Z;
  num_of_decimal := Binary64.of_decimal;
  num_add := PrimFloat.add;
  num_sub := PrimFloat.sub;
  num_mul := PrimFloat.mul;
  num_div := PrimFloat.div;
  num_leb := PrimFloat.leb;
  num_truthy := Binary64.truthy
}.

#[export] Instance Qc_Number : Number Qc := {
  num_of_Z := fun z => Q2Qc (inject_Z z);
  num_of_decimal := fun m k => Q2Qc (Z.of_N m # Z.to_pos (10 ^ Z.of_nat k));
  num_add := Qcplus;
  num_sub := Qcminus;
  num_mul := Qcmult;
  num_div := Qcdiv;
  num_leb := fun x y => Qle_bool x y;
  num_truthy := fun x => negb (Qeq_bool x 0)
}.

(** ** Text *)

Module Text.

Definition code (c : ascii) : N := N_of_ascii c.

(** [\d] *)
Definition is_digit (c : ascii) : bool :=
  ((48 <=? code c) && (code c <=? 57))%N.

(** [\s], and the characters [str.strip] removes: tab, line feed,
    vertical tab, form feed, carriage return, the four separators
    28..31 and the space. *)
Definition is_space (c : ascii) : bool :=
  (((9 <=? code c) && (code c <=? 13))
   || ((28 <=? code c) && (code c <=? 32)))%N.

(** [\w] *)
Definition is_word (c : ascii) : bool :=
  (is_digit c
   || ((65 <=? code c) && (code c <=? 90))
   || ((97 <=? code c) && (code c <=? 122))
   || (code c =? 95))%N.

Definition is_newline (c : ascii) : bool := (code c =? 10)%N.

Definition lower_char (c : ascii) : ascii :=
  if ((65 <=? code c) && (code c <=? 90))%N
  then ascii_of_N (code c + 32) else c.

Definition chars (s : string) : list ascii := list_ascii_of_string s.
Definition text (l : list ascii) : string := string_of_list_ascii l.

(** [s.lower()] *)
Definition lower (s : string) : string := text (map lower_char (chars s)).

Fixpoint lstrip_chars (l : list ascii) : list ascii :=
  match l with
  | c :: l' => if is_space c then lstrip_chars l' else l
  | [] => []
  end.

Definition strip_chars (l : list ascii) : list ascii :=
  rev (lstrip_chars (rev (lstrip_chars l))).

(** [s.strip()] *)
Definition strip (s : string) : string := text (strip_chars (chars s)).

(** [s.replace(',', '.')] *)
Definition replace_comma (s : string) : string :=
  text (map (fun c => if Ascii.eqb c "," then "."%char else c) (chars s)).

Fixpoint starts_with (p l : list ascii) : bool :=
  match p, l with
  | [], _ => true
  | a :: p', b :: l' => Ascii.eqb a b && starts_with p' l'
  | _ :: _, [] => false
  end.

Fixpoint occurs_in (p l : list ascii) : bool :=
  starts_with p l ||
  match l with
  | [] => false
  | _ :: l' => occurs_in p l'
  end.

(** [a in b] on strings: [a] is a substring of [b] *)
Definition contains (a b : string) : bool := occurs_in (chars a) (chars b).

(** The digits a text starts with. *)
Fixpoint leading_digits (l : list ascii) : list ascii :=
  match l with
  | c :: l' => if is_digit c then c :: leading_digits l' else []
  | [] => []
  end.

(** [s.split(sep)] for a one-character [sep]; [piece] is the current
    piece, last character first. *)
Fixpoint split_chars (sep : ascii) (piece l : list ascii) : list (list ascii) :=
  match l with
  | [] => [rev piece]
  | c :: l' =>
      if Ascii.eqb c sep then rev piece :: split_chars sep [] l'
      else split_chars sep (c :: piece) l'
  end.

Definition split_on (sep : ascii) (s : string) : list string :=
  text <$> split_chars sep [] (chars s).

(** [a in s] for a one-character [a] *)
Definition has_char (a : ascii) (s : string) : bool :=
  existsb (Ascii.eqb a) (chars s).

End Text.

(** ** Regular expressions, as [re] matches them

    A backtracking matcher in continuation-passing style: alternatives
    are tried left to right, greedy repetitions take as much as they can
    and give back, lazy ones take as little as they can and extend, and
    the first complete match wins.  That is the order in which [re]
    explores a pattern, so the groups reported are those Python
    reports. *)

Module Regex.

Inductive regex : Type :=
| Eps                               (* the empty pattern *)
| Symbol (p : ascii -> bool)        (* one character of a class *)
| Cat (r1 r2 : regex)               (* r1 r2 *)
| Alt (r1 r2 : regex)               (* r1|r2 *)
| Star (r : regex)                  (* r*, greedy *)
| LazyStar (r : regex)              (* r*?, lazy *)
| Group (n : nat) (r : regex)       (* (r), the n-th group *)
| Bol                               (* ^ *)
| Eol                               (* $ *)
| WordBoundary.                     (* \b *)

Definition Plus (r : regex) : regex := Cat r (Star r).           (* r+ *)
Definition LazyPlus (r : regex) : regex := Cat r (LazyStar r).   (* r+? *)
Definition Opt (r : regex) : regex := Alt r Eps.                 (* r? *)
Definition Chr (c : ascii) : regex := Symbol (Ascii.eqb c).
Fixpoint Lit (l : list ascii) : regex :=
  match l with
  | [] => Eps
  | [c] => Chr c
  | c :: l' => Cat (Chr c) (Lit l')
  end.
Definition Str (s : string) : regex := Lit (Text.chars s).
(** [.]: any character but a line feed *)
Definition Dot : regex := Symbol (fun c => negb (Text.is_newline c)).

(** A position in the subject: the text before it (nearest character
    first) and the text from it on. *)
Record cursor := Cursor { seen : list ascii; ahead : list ascii }.

Definition captures := list (nat * list ascii).

(** [m.group(n)], [None] for a group that took no part in the match *)
Fixpoint group (c : captures) (n : nat) : option string :=
  match c with
  | [] => None
  | (k, s) :: c' => if Nat.eqb k n then Some (Text.text s) else group c' n
  end.

Definition word_at (l : list ascii) : bool :=
  match l with
  | c :: _ => Text.is_word c
  | [] => false
  end.

Definition at_end (l : list ascii) : bool :=
  match l with
  | [] => true
  | [c] => Text.is_newline c
  | _ => false
  end.

Definition consumed (s s' : cursor) : list ascii :=
  take (List.length (ahead s) - List.length (ahead s')) (ahead s).

Section Matcher.
Context {R : Type}.

(** A matcher takes what is to follow (the continuation), a position
    and the groups so far. *)
Definition matcher : Type :=
  (cursor -> captures -> option R) -> cursor -> captures -> option R.

(** Keep going only after an iteration that consumed something: a
    repetition stops at an iteration that consumes nothing. *)
Definition if_shorter (s : cursor) (k : cursor -> captures -> option R)
  : cursor -> captures -> option R :=
  fun s' c' =>
    if Nat.ltb (List.length (ahead s')) (List.length (ahead s)) then k s' c' else None.

(** [body*]: one more iteration if it leads to a match, else what
    follows.  [fuel] bounds the iterations by the characters left. *)
Fixpoint greedy_star (body : matcher) (k : cursor -> captures -> option R)
         (fuel : nat) (s : cursor) (c : captures) {struct fuel} : option R :=
  match fuel with
  | O => k s c
  | S fuel' =>
      match body (if_shorter s (greedy_star body k fuel')) s c with
      | Some x => Some x
      | None => k s c
      end
  end.

(** [body*?]: what follows if it leads to a match, else one more
    iteration. *)
Fixpoint lazy_star (body : matcher) (k : cursor -> captures -> option R)
         (fuel : nat) (s : cursor) (c : captures) {struct fuel} : option R :=
  match k s c with
  | Some x => Some x
  | None =>
      match fuel with
      | O => None
      | S fuel' => body (if_shorter s (lazy_star body k fuel')) s c
      end
  end.

(** [run r k s c]: match [r] at [s] with the groups [c] so far, then
    continue with [k]; [None] makes the matcher backtrack. *)
Fixpoint run (r : regex) (k : cursor -> captures -> option R)
         (s : cursor) (c : captures) {struct r} : option R :=
  match r with
  | Eps => k s c
  | Symbol p =>
      match ahead s with
      | a :: l => if p a then k (Cursor (a :: seen s) l) c else None
      | [] => None
      end
  | Cat r1 r2 => run r1 (run r2 k) s c
  | Alt r1 r2 =>
      match run r1 k s c with
      | Some x => Some x
      | None => run r2 k s c
      end
  | Star r1 => greedy_star (run r1) k (List.length (ahead s)) s c
  | LazyStar r1 => lazy_star (run r1) k (List.length (ahead s)) s c
  | Group n r1 =>
      run r1 (fun s' c' => k s' ((n, consumed s s') :: c')) s c
  | Bol => match seen s with [] => k s c | _ => None end
  | Eol => if at_end (ahead s) then k s c else None
  | WordBoundary =>
      if xorb (word_at (seen s)) (word_at (ahead s)) then k s c else None
  end.
End Matcher.

(** The match of [r] at position [s], if any: where it ends and its
    groups. *)
Definition match_at (r : regex) (s : cursor) : option (cursor * captures) :=
  run r (fun s' c' => Some (s', c')) s [].

(** [re.match(r, text)]: a match starting at the first character. *)
Definition re_match (r : regex) (subject : string) : option captures :=
  snd <$> match_at r (Cursor [] (Text.chars subject)).

(** [re.split(r, text)] for a pattern without groups that matches no
    empty string: the pieces between the successive leftmost matches.
    [piece] is the current piece (last character first) and [skip] the
    number of characters of the current match still to pass. *)
Fixpoint split_from (r : regex) (before piece : list ascii) (skip : nat)
         (l : list ascii) {struct l} : list (list ascii) :=
  match skip with
  | S skip' =>
      match l with
      | a :: l' => split_from r (a :: before) piece skip' l'
      | [] => [rev piece]
      end
  | O =>
      match l with
      | [] => [rev piece]
      | a :: l' =>
          match match_at r (Cursor before l) with
          | Some (s', _) =>
              match List.length l - List.length (ahead s') with
              | S n => rev piece :: split_from r (a :: before) [] n l'
              | O => split_from r (a :: before) (a :: piece) 0 l'
              end
          | None => split_from r (a :: before) (a :: piece) 0 l'
          end
      end
  end.

Definition re_split (r : regex) (subject : string) : list string :=
  Text.text <$> split_from r [] [] 0 (Text.chars subject).

End Regex.

Import Regex.

(** ** Data *)

(** The dictionary [{"kcal": .., "proteines": .., "lipides": ..,
    "glucides": ..}] of an entry and of a day's totals. *)
Record Macros (A : Type) := mkMacros {
  kcal : A; proteines : A; lipides : A; glucides : A
}.
Arguments mkMacros {A}.
Arguments kcal {A}.
Arguments proteines {A}.
Arguments lipides {A}.
Arguments glucides {A}.

(** One element of the list [parse_food_entry] returns: the tuple
    [(food_name, grams, macros)], with [None] for the macros of a food
    the catalog does not know. *)
Definition Declaration (A : Type) : Type := string * A * option (Macros A).

(** ** The parser *)

Module Patterns.

Fixpoint Seq (l : list regex) : regex :=
  match l with
  | [] => Eps
  | [r] => r
  | r :: l' => Cat r (Seq l')
  end.

Definition digit : regex := Symbol Text.is_digit.
Definition space : regex := Symbol Text.is_space.

(** [\d+(?:[.,]\d+)?] *)
Definition number : regex :=
  Cat (Plus digit)
      (Opt (Cat (Symbol (fun c => Ascii.eqb c "." || Ascii.eqb c ","))
                (Plus digit))).

(** [g|gr|grammes?|ml|cl|l|kg] *)
Definition unit_name : regex :=
  Alt (Str "g") (Alt (Str "gr") (Alt (Cat (Str "gramme") (Opt (Str "s")))
  (Alt (Str "ml") (Alt (Str "cl") (Alt (Str "l") (Str "kg")))))).

(** [[,\n]+|\bet\b] *)
Definition separator : regex :=
  Alt (Plus (Symbol (fun c => Ascii.eqb c "," || Text.is_newline c)))
      (Seq [WordBoundary; Str "et"; WordBoundary]).

(** [^(\d+(?:[.,]\d+)?)\s*(g|gr|grammes?|ml|cl|l|kg)?\s*(?:de\s+|d\')?(.+)$] *)
Definition pattern : regex :=
  Seq [Bol; Group 1 number; Star space; Opt (Group 2 unit_name); Star space;
       Opt (Alt (Cat (Str "de") (Plus space)) (Str "d'"));
       Group 3 (Plus Dot); Eol].

(** [^(.+?)\s+(\d+(?:[.,]\d+)?)\s*(g|gr|grammes?|ml|cl|l|kg)?$] *)
Definition pattern_inv : regex :=
  Seq [Bol; Group 1 (LazyPlus Dot); Plus space; Group 2 number; Star space;
       Opt (Group 3 unit_name); Eol].

(** The six-field pattern of [/add]:
    [(\d+(?:[.,]\d+)?)\s*(g|gr|grammes?)\s+(\d+(?:[.,]\d+)?)\s*kcal\s+
     (\d+(?:[.,]\d+)?)\s*p\s+(\d+(?:[.,]\d+)?)\s*l\s+(\d+(?:[.,]\d+)?)\s*g] *)
Definition quick_add : regex :=
  Seq [Group 1 number; Star space;
       Group 2 (Alt (Str "g") (Alt (Str "gr") (Cat (Str "gramme") (Opt (Str "s")))));
       Plus space; Group 3 number; Star space; Str "kcal";
       Plus space; Group 4 number; Star space; Str "p";
       Plus space; Group 5 number; Star space; Str "l";
       Plus space; Group 6 number; Star space; Str "g"].

(** The four-field pattern of [/add]:
    [(\d+(?:[.,]\d+)?)\s*kcal\s+(\d+(?:[.,]\d+)?)\s*p\s+
     (\d+(?:[.,]\d+)?)\s*l\s+(\d+(?:[.,]\d+)?)\s*g] *)
Definition quick_add_no_qty : regex :=
  Seq [Group 1 number; Star space; Str "kcal";
       Plus space; Group 2 number; Star space; Str "p";
       Plus space; Group 3 number; Star space; Str "l";
       Plus space; Group 4 number; Star space; Str "g"].

End Patterns.

Section Parser.
Context {A : Type} `{Number A}.

(** The module [foods_database] is not part of the sources at hand.
    Its table [STANDARD_UNITS] (unit name -> grams, in the order of
    the dictionary) and its lookup [get_food_info] (food name -> the
    tuple (kcal, prot, lip, gluc) per 100 g, or [None]) are taken as
    they are imported: as parameters. *)
Variable STANDARD_UNITS : list (string * A).
Variable get_food_info : string -> option (A * A * A * A).

Definition digits_value (l : list ascii) : N :=
  fold_left (fun n c => (10 * n + (Text.code c - 48))%N) l 0%N.

(** [float(s)] for a string [s] of the shape [\d+(?:\.\d+)?], the only
    shape the patterns let through once the comma is replaced: on it
    [float] never raises. *)
Definition py_float (s : string) : A :=
  let l := Text.chars s in
  let i := Text.leading_digits l in
  match drop (List.length i) l with
  | "."%char :: f =>
      let f := Text.leading_digits f in
      num_of_decimal (digits_value (i ++ f)) (List.length f)
  | _ => num_of_decimal (digits_value i) 0
  end.

(** [float(m.group(n).replace(',', '.'))] *)
Definition quantity_of (token : string) : A :=
  py_float (Text.replace_comma token).

(** Lines 121-141: the two patterns in turn; the quantity, the unit
    ([''] when absent) and the food name of an item, or [None] when
    neither pattern matches. *)
Definition match_item (item : string) : option (A * string * string) :=
  match re_match Patterns.pattern item with
  | Some m =>
      let quantity := quantity_of (default "" (group m 1)) in
      let unit := default "" (group m 2) in
      let food_name := Text.strip (default "" (group m 3)) in
      Some (quantity, unit, food_name)
  | None =>
      match re_match Patterns.pattern_inv item with
      | Some m =>
          let food_name := Text.strip (default "" (group m 1)) in
          let quantity := quantity_of (default "" (group m 2)) in
          let unit := default "" (group m 3) in
          Some (quantity, unit, food_name)
      | None => None
      end
  end.

(** Lines 160-163: the first unit whose name is inside the food name
    or contains it. *)
Fixpoint find_unit (units : list (string * A)) (food_name : string) : option A :=
  match units with
  | [] => None
  | (std_name, std_grams) :: units' =>
      if Text.contains std_name food_name || Text.contains food_name std_name
      then Some std_grams
      else find_unit units' food_name
  end.

(** [STANDARD_UNITS[food_name]], [None] when the key is absent *)
Fixpoint unit_of (units : list (string * A)) (food_name : string) : option A :=
  match units with
  | [] => None
  | (std_name, std_grams) :: units' =>
      if String.eqb std_name food_name then Some std_grams
      else unit_of units' food_name
  end.

(** Lines 168-173, the [else] of [if unit_grams:]. *)
Definition fallback_grams (quantity : A) (food_name : string) : A :=
  match get_food_info food_name, unit_of STANDARD_UNITS food_name with
  | Some _, Some std_grams => num_mul quantity std_grams
  | _, _ => quantity
  end.

(** Lines 157-175, the branch of the units g, gr, gramme, grammes and
    of no unit. *)
Definition count_or_grams (quantity : A) (unit food_name : string) : A :=
  if String.eqb unit "" && num_leb quantity (num_of_Z 20) then
    match find_unit STANDARD_UNITS food_name with
    | Some unit_grams =>
        if num_truthy unit_grams then num_mul quantity unit_grams
        else fallback_grams quantity food_name
    | None => fallback_grams quantity food_name
    end
  else quantity.

(** Lines 146-177: the quantity in grams. *)
Definition to_grams (quantity : A) (unit food_name : string) : A :=
  if String.eqb unit "kg" then num_mul quantity (num_of_Z 1000)
  else if String.eqb unit "cl" then num_mul quantity (num_of_Z 10)
  else if String.eqb unit "l" then num_mul quantity (num_of_Z 1000)
  else if String.eqb unit "ml" then quantity
  else if existsb (String.eqb unit) ["g"; "gr"; "gramme"; "grammes"; ""]
       then count_or_grams quantity unit food_name
  else quantity.

(** Lines 179-195: the declaration of a food name and its grams. *)
Definition declare (food_name : string) (grams : A) : Declaration A :=
  match get_food_info food_name with
  | Some (kcal, prot, lip, gluc) =>
      let ratio := num_div grams (num_of_Z 100) in
      (food_name, grams,
       Some (mkMacros (num_mul kcal ratio) (num_mul prot ratio)
                      (num_mul lip ratio) (num_mul gluc ratio)))
  | None => (food_name, grams, None)
  end.

(** The body of the loop for an item that is not empty: nothing for an
    item no pattern recognises, else its declaration. *)
Definition parse_item (item : string) : option (Declaration A) :=
  match match_item item with
  | Some (quantity, unit, food_name) =>
      Some (declare food_name (to_grams quantity unit food_name))
  | None => None
  end.

(** Line 111 and line 114: [re.split(r'[,\n]+|\bet\b', text.lower().strip())] *)
Definition split_items (text : string) : list string :=
  re_split Patterns.separator (Text.strip (Text.lower text)).

(** One turn of [for item in items]: [results] before, [results]
    after. *)
Definition parse_step (results : list (Declaration A)) (item : string)
  : list (Declaration A) :=
  let item := Text.strip item in
  if String.eqb item "" then results
  else match parse_item item with
       | Some d => results ++ [d]
       | None => results
       end.

Definition parse_food_entry (text : string) : list (Declaration A) :=
  fold_left parse_step (split_items text) [].

End Parser.

(** ** The ledger *)

(** An element of [daily_data[date]["entries"]]. *)
Record Entry (A : Type) := mkEntry {
  food : string; quantity : A; macros : Macros A; time : string
}.
Arguments mkEntry {A}.
Arguments food {A}.
Arguments quantity {A}.
Arguments macros {A}.
Arguments time {A}.

(** A value of [daily_data]: the entries in the order of their recording
    and the running totals. *)
Record Day (A : Type) := mkDay {
  entries : list (Entry A); totals : Macros A
}.
Arguments mkDay {A}.
Arguments entries {A}.
Arguments totals {A}.

(** The module-level variables the handlers share, and the table
    [FOODS_DATABASE] that [/add name|...] extends. *)
Record State (A : Type) := mkState {
  daily_data : gmap string (Day A);
  last_entry : option (Entry A);
  FOODS_DATABASE : gmap string (A * A * A * A)
}.
Arguments mkState {A}.
Arguments daily_data {A}.
Arguments last_entry {A}.
Arguments FOODS_DATABASE {A}.

(** What a handler read from the clock: [get_today_key()] and
    [datetime.now(TIMEZONE).strftime("%H:%M")].  One reading serves a
    whole call of a handler. *)
Record Clock := mkClock { today : string; hhmm : string }.

(** What a handler answers, without the wording of the message. *)
Inductive Reply (A : Type) : Type :=
| Ignored                                   (* a command: no answer *)
| NotUnderstood                             (* nothing could be parsed *)
| Recorded (recorded : list (Entry A)) (not_found : list string)
| NothingToUndo                             (* no entry today *)
| Undone (last : Entry A)
| AddUsage                                  (* /add without argument *)
| AddBadShape                               (* not five fields between bars *)
| AddBadNumber                              (* a field is not a number *)
| AddSaved (name : string) (info : A * A * A * A)
| AddUnrecognised                           (* neither quick-add pattern *)
| QuickAdded (entry : Entry A).
Arguments Ignored {A}.
Arguments NotUnderstood {A}.
Arguments Recorded {A}.
Arguments NothingToUndo {A}.
Arguments Undone {A}.
Arguments AddUsage {A}.
Arguments AddBadShape {A}.
Arguments AddBadNumber {A}.
Arguments AddSaved {A}.
Arguments AddUnrecognised {A}.
Arguments QuickAdded {A}.

(** [l.pop()] on a list that is not empty: what remains and the last
    element. *)
Fixpoint pop {X : Type} (l : list X) : option (list X * X) :=
  match l with
  | [] => None
  | x :: l' =>
      match pop l' with
      | None => Some ([], x)
      | Some (r, y) => Some (x :: r, y)
      end
  end.

Section Ledger.
Context {A : Type} `{Number A}.

Variable STANDARD_UNITS : list (string * A).
(** [get_food_info], as a function of the table it reads. *)
Variable get_food_info : gmap string (A * A * A * A) -> string -> option (A * A * A * A).
(** [float(s)] on arbitrary text, [None] for [ValueError]; used on the
    fields of [/add name|kcal|prot|lip|gluc] only. *)
Variable float_of_text : string -> option A.
(** [f"{x:.0f}"], which only labels the quick-add entries. *)
Variable format_0f : A -> string.

Definition zero_macros : Macros A :=
  mkMacros (num_of_Z 0) (num_of_Z 0) (num_of_Z 0) (num_of_Z 0).

(** [t[key] += m[key]] for the four keys *)
Definition add_macros (t m : Macros A) : Macros A :=
  mkMacros (num_add (kcal t) (kcal m)) (num_add (proteines t) (proteines m))
           (num_add (lipides t) (lipides m)) (num_add (glucides t) (glucides m)).

(** [t[key] -= m[key]] for the four keys *)
Definition sub_macros (t m : Macros A) : Macros A :=
  mkMacros (num_sub (kcal t) (kcal m)) (num_sub (proteines t) (proteines m))
           (num_sub (lipides t) (lipides m)) (num_sub (glucides t) (glucides m)).

Definition empty_day : Day A := mkDay [] zero_macros.

Definition init_day (date_key : string) (data : gmap string (Day A))
  : gmap string (Day A) :=
  match data !! date_key with
  | Some _ => data
  | None => <[date_key := empty_day]> data
  end.

(** [daily_data[date_key]] once [init_day(date_key)] has run. *)
Definition day_of (data : gmap string (Day A)) (date_key : string) : Day A :=
  default empty_day (data !! date_key).

Definition with_data (st : State A) (data : gmap string (Day A)) : State A :=
  mkState data (last_entry st) (FOODS_DATABASE st).

(** Lines 499-503 and 402-407, the same statements in both handlers:
    append the entry to today's entries, remember it in [last_entry],
    add its macros to today's totals. *)
Definition record_entry (date_key : string) (entry : Entry A) (st : State A)
  : State A :=
  let day := day_of (daily_data st) date_key in
  mkState
    (<[date_key := mkDay (entries day ++ [entry])
                         (add_macros (totals day) (macros entry))]>
       (daily_data st))
    (Some entry)
    (FOODS_DATABASE st).

(** [undo] *)
Definition undo (clock : Clock) (st : State A) : Reply A * State A :=
  let data := init_day (today clock) (daily_data st) in
  let day := day_of data (today clock) in
  match pop (entries day) with
  | None => (NothingToUndo, with_data st data)
  | Some (remaining, last) =>
      (Undone last,
       with_data st
         (<[today clock := mkDay remaining (sub_macros (totals day) (macros last))]>
            data))
  end.

(** One turn of the loop of [handle_food_message] (lines 491-508) on
    the state, the entries recorded so far and the names not found. *)
Definition record_declaration (clock : Clock)
           (acc : State A * list (Entry A) * list string) (d : Declaration A)
  : State A * list (Entry A) * list string :=
  let '(st, recorded, not_found) := acc in
  let '(food_name, grams, m) := d in
  match m with
  | Some m =>
      let entry := mkEntry food_name grams m (hhmm clock) in
      (record_entry (today clock) entry st, recorded ++ [entry], not_found)
  | None => (st, recorded, not_found ++ [food_name])
  end.

(** [handle_food_message] *)
Definition handle_food_message (text : string) (clock : Clock) (st : State A)
  : Reply A * State A :=
  if Text.starts_with ["/"%char] (Text.chars text) then (Ignored, st)
  else
    let st := with_data st (init_day (today clock) (daily_data st)) in
    let parsed := parse_food_entry STANDARD_UNITS
                    (get_food_info (FOODS_DATABASE st)) text in
    match parsed with
    | [] => (NotUnderstood, st)
    | _ =>
        let '(st', recorded, not_found) :=
          fold_left (record_declaration clock) parsed (st, [], []) in
        (Recorded recorded not_found, st')
    end.

(** The quantity and the four macros of a quick add (lines 355-382),
    [None] when neither pattern matches. *)
Definition quick_add_fields (full_args : string) : option (A * Macros A) :=
  match re_match Patterns.quick_add (Text.lower full_args) with
  | Some m =>
      Some (quantity_of (default "" (group m 1)),
            mkMacros (quantity_of (default "" (group m 3)))
                     (quantity_of (default "" (group m 4)))
                     (quantity_of (default "" (group m 5)))
                     (quantity_of (default "" (group m 6))))
  | None =>
      match re_match Patterns.quick_add_no_qty (Text.lower full_args) with
      | Some m =>
          Some (num_of_Z 100,
                mkMacros (quantity_of (default "" (group m 1)))
                         (quantity_of (default "" (group m 2)))
                         (quantity_of (default "" (group m 3)))
                         (quantity_of (default "" (group m 4))))
      | None => None
      end
  end.

(** The branch of [add_food] for an argument with a bar (lines
    329-353). *)
Definition add_to_database (full_args : string) (st : State A)
  : Reply A * State A :=
  match Text.split_on "|" full_args with
  | [p0; p1; p2; p3; p4] =>
      let name := Text.lower (Text.strip p0) in
      match float_of_text p1, float_of_text p2, float_of_text p3, float_of_text p4 with
      | Some kcal, Some prot, Some lip, Some gluc =>
          (AddSaved name (kcal, prot, lip, gluc),
           mkState (daily_data st) (last_entry st)
                   (<[name := (kcal, prot, lip, gluc)]> (FOODS_DATABASE st)))
      | _, _, _, _ => (AddBadNumber, st)
      end
  | _ => (AddBadShape, st)
  end.

(** [add_food], on the words [context.args] of the command *)
Definition add_food (args : list string) (clock : Clock) (st : State A)
  : Reply A * State A :=
  match args with
  | [] => (AddUsage, st)
  | _ =>
      let full_args := String.concat " " args in
      if Text.has_char "|" full_args then add_to_database full_args st
      else
        match quick_add_fields full_args with
        | None => (AddUnrecognised, st)
        | Some (grams, m) =>
            let st := with_data st (init_day (today clock) (daily_data st)) in
            let entry := mkEntry ("ajout manuel (" +:+ format_0f grams +:+ "g)")
                                 grams m (hhmm clock) in
            (QuickAdded entry, record_entry (today clock) entry st)
        end
  end.

End Ledger.

(** ** Dates *)

Module Calendar.

Definition is_leap (y : Z) : bool :=
  ((y mod 4 =? 0) && (negb (y mod 100 =? 0) || (y mod 400 =? 0)))%Z.

Definition days_in_month (y m : Z) : Z :=
  if (m =? 2)%Z then (if is_leap y then 29 else 28)%Z
  else if ((m =? 4) || (m =? 6) || (m =? 9) || (m =? 11))%Z then 30%Z
  else 31%Z.

(** The days of the year before the first of month [m]. *)
Definition days_before_month (y m : Z) : Z :=
  fold_left (fun acc k => (acc + days_in_month y (Z.of_nat k))%Z)
            (seq 1 (Z.to_nat m - 1)) 0%Z.

(** The days before the first of January of year [y]. *)
Definition days_before_year (y : Z) : Z :=
  let p := (y - 1)%Z in
  (p * 365 + p / 4 - p / 100 + p / 400)%Z.

(** [date(y, m, d).toordinal()]: 1 for the first of January of year 1 *)
Definition ordinal (y m d : Z) : Z :=
  (days_before_year y + days_before_month y m + d)%Z.

Definition digit19 : regex := Symbol (fun c => Text.is_digit c && negb (Ascii.eqb c "0")).
Definition range (lo hi : ascii) : regex :=
  Symbol (fun c => (Text.code lo <=? Text.code c)%N && (Text.code c <=? Text.code hi)%N).

(** The regular expression [strptime] builds from ["%Y-%m-%d"]:
    [(\d\d\d\d)-(1[0-2]|0[1-9]|[1-9])-(3[01]|[12]\d|0[1-9]|[1-9]| [1-9])] *)
Definition date_format : regex :=
  Patterns.Seq
    [Group 1 (Patterns.Seq [Patterns.digit; Patterns.digit; Patterns.digit; Patterns.digit]);
     Chr "-";
     Group 2 (Alt (Cat (Chr "1") (range "0" "2"))
             (Alt (Cat (Chr "0") digit19) digit19));
     Chr "-";
     Group 3 (Alt (Cat (Chr "3") (range "0" "1"))
             (Alt (Cat (range "1" "2") Patterns.digit)
             (Alt (Cat (Chr "0") digit19)
             (Alt digit19 (Cat (Chr " ") digit19)))))].

(** [int(s)] for a field of the date: its digits, a leading space
    apart *)
Definition field (m : captures) (n : nat) : Z :=
  Z.of_N (fold_left (fun acc c => if Text.is_digit c
                                  then (10 * acc + (Text.code c - 48))%N else acc)
                    (Text.chars (default "" (group m n))) 0%N).

(** [datetime.strptime(s, "%Y-%m-%d")] as the ordinal of the day it
    denotes (the time of day is midnight), [None] when it raises: the
    text does not match, something follows the match, or the date does
    not exist. *)
Definition strptime (s : string) : option Z :=
  match match_at date_format (Cursor [] (Text.chars s)) with
  | Some (Cursor _ [], m) =>
      let y := field m 1 in
      let mo := field m 2 in
      let d := field m 3 in
      if ((1 <=? y) && (d <=? days_in_month y mo))%Z
      then Some (ordinal y mo d) else None
  | _ => None
  end.

(** A naive local date and time: the ordinal of the day and the
    microseconds elapsed since its midnight. *)
Record datetime := mkDatetime { day : Z; micros : Z }.

(** [a < b] *)
Definition before (a b : datetime) : bool :=
  ((day a <? day b) || ((day a =? day b) && (micros a <? micros b)))%Z.

(** [t - timedelta(days=n)] *)
Definition minus_days (t : datetime) (n : Z) : datetime :=
  mkDatetime (day t - n) (micros t).

End Calendar.

Section Retention.
Context {A : Type}.

(** Lines 578-583: whether [midnight_reset] lists the key for
    deletion. *)
Definition expired (now : Calendar.datetime) (date_key : string) : bool :=
  match Calendar.strptime date_key with
  | Some d =>
      Calendar.before (Calendar.mkDatetime d 0) (Calendar.minus_days now 4)
  | None => false
  end.

(** [midnight_reset], with [now] the result of
    [datetime.now(TIMEZONE)] without its time zone *)
Definition midnight_reset (now : Calendar.datetime) (st : State A) : State A :=
  let keys_to_delete :=
    filter (fun k => expired now k = true) (fst <$> map_to_list (daily_data st)) in
  mkState (fold_left (fun data key => delete key data) keys_to_delete (daily_data st))
          (last_entry st) (FOODS_DATABASE st).

End Retention.


(** ** Histories *)

(** What can happen to the state: a text message, [/add], [/undo], a
    handler that only makes sure today exists ([/status], a reminder),
    and the nightly clean-up. *)
Inductive Op : Type :=
| Message (text : string) (clock : Clock)
| Add (args : list string) (clock : Clock)
| Undo (clock : Clock)
| Status (clock : Clock)
| MidnightReset (now : Calendar.datetime).

Definition is_undo (op : Op) : bool :=
  match op with Undo _ => true | _ => false end.

Section Histories.
Context {A : Type} `{Number A}.
Variable STANDARD_UNITS : list (string * A).
Variable get_food_info : gmap string (A * A * A * A) -> string -> option (A * A * A * A).
Variable float_of_text : string -> option A.
Variable format_0f : A -> string.

Definition apply_op (st : State A) (op : Op) : State A :=
  match op with
  | Message text clock =>
      snd (handle_food_message STANDARD_UNITS get_food_info text clock st)
  | Add args clock => snd (add_food float_of_text format_0f args clock st)
  | Undo clock => snd (undo clock st)
  | Status clock => with_data st (init_day (today clock) (daily_data st))
  | MidnightReset now => midnight_reset now st
  end.

(** The state after the operations [ops], in order, from [st]. *)
Definition run (ops : list Op) (st : State A) : State A :=
  fold_left apply_op ops st.

(** The state of a process that has just started. *)
Definition initial (database : gmap string (A * A * A * A)) : State A :=
  mkState ∅ None database.

(** The macros of a list of entries summed key by key, from zero, in
    the order of the list. *)
Definition sum_macros (ms : list (Macros A)) : Macros A :=
  fold_left add_macros ms zero_macros.

(** The totals of every day are the sum of its entries' macros. *)
Definition consistent (st : State A) : Prop :=
  forall date_key day,
    daily_data st !! date_key = Some day ->
    totals day = sum_macros (macros <$> entries day).

End Histories.

(** ** A catalog for the examples *)

Module Example.

(** Modelled from the spec: the catalog of the examples of section 8,
    [foods_database] itself being absent: rice (130, 2.7, 0.3, 28) and
    egg (155, 13, 11, 1) per 100 g, one egg weighing 60 g. *)
Definition FOODS {A : Type} `{Number A} : gmap string (A * A * A * A) :=
  {[ "rice" := (num_of_Z 130, num_of_decimal 27 1, num_of_decimal 3 1, num_of_Z 28);
     "egg" := (num_of_Z 155, num_of_Z 13, num_of_Z 11, num_of_Z 1) ]}.

(** Modelled from the spec: the table of standard units of the same
    examples, "egg" -> 60 g. *)
Definition UNITS {A : Type} `{Number A} : list (string * A) := [("egg", num_of_Z 60)].

(** Modelled from the spec: [lookup_exact(name) -> FoodMacros | absent],
    the catalog's lookup by exact name. *)
Definition lookup_exact {A : Type} (table : gmap string (A * A * A * A))
           (name : string) : option (A * A * A * A) :=
  table !! name.

(** The fields of [/add name|...] play no part in the examples. *)
Definition no_float {A : Type} (s : string) : option A := None.
(** Nor does the label of a quick add. *)
Definition no_label {A : Type} (x : A) : string := "".

Definition clock : Clock := mkClock "2024-03-15" "12:30".

(** The handlers over this catalog. *)
Definition run {A : Type} `{Number A} (ops : list Op) : State A :=
  run UNITS lookup_exact no_float no_label ops (initial FOODS).

(** A history without undo. *)
Definition day_of_meals : list Op :=
  [Status clock; Message "200g rice, 3 egg" clock;
   Add ["30g"; "150kcal"; "10p"; "5l"; "8g"] clock;
   MidnightReset (Calendar.mkDatetime (Calendar.ordinal 2024 3 16) 60000000);
   Message "rice 50" clock].

(** Two quick adds of 0.1 and 0.2 kcal, the second one undone. *)
Definition add_add_undo : list Op :=
  [Add ["0.1kcal"; "0p"; "0l"; "0g"] clock;
   Add ["0.2kcal"; "0p"; "0l"; "0g"] clock;
   Undo clock].

End Example.

(** ** Reference notions for the statements *)

Section Reference.
Context {A : Type} `{Number A}.

(** The entry [handle_food_message] builds from a declaration whose
    food the catalog knows; nothing for the others. *)
Definition entry_of (clock : Clock) (d : Declaration A) : option (Entry A) :=
  let '(food_name, grams, m) := d in
  (fun m => mkEntry food_name grams m (hhmm clock)) <$> m.

Definition resolved_entries (clock : Clock) (ds : list (Declaration A)) : list (Entry A) :=
  omap (entry_of clock) ds.

(** The names of the declarations whose food the catalog does not
    know. *)
Definition unresolved_names (ds : list (Declaration A)) : list string :=
  omap (fun d : Declaration A => match d with
                | (food_name, _, None) => Some food_name
                | _ => None
                end) ds.

(** The recording of a list of entries, one after the other. *)
Definition record_entries (date_key : string) (es : list (Entry A)) (st : State A) : State A :=
  fold_left (fun st e => record_entry date_key e st) es st.

End Reference.

Section ParserReference.
Context {A : Type} `{Number A}.
Variable STANDARD_UNITS : list (string * A).
Variable get_food_info : string -> option (A * A * A * A).

(** The items the loop of [parse_food_entry] works on: the pieces of
    the split, stripped, without the empty ones. *)
Definition items (text : string) : list string :=
  filter (fun item => item <> "") (Text.strip <$> split_items text).

(** A unit name and a food name of which one is inside the other. *)
Definition names_overlap (std_name food_name : string) : bool :=
  Text.contains std_name food_name || Text.contains food_name std_name.

(** The parser without lines 168-171, the look-up of the food's own
    name among the units: when the first pass over the units gives
    nothing, the number is the grams. *)
Definition count_or_grams_without_fallback (quantity : A) (unit food_name : string) : A :=
  if String.eqb unit "" && num_leb quantity (num_of_Z 20) then
    match find_unit STANDARD_UNITS food_name with
    | Some unit_grams =>
        if num_truthy unit_grams then num_mul quantity unit_grams else quantity
    | None => quantity
    end
  else quantity.

Definition to_grams_without_fallback (quantity : A) (unit food_name : string) : A :=
  if String.eqb unit "kg" then num_mul quantity (num_of_Z 1000)
  else if String.eqb unit "cl" then num_mul quantity (num_of_Z 10)
  else if String.eqb unit "l" then num_mul quantity (num_of_Z 1000)
  else if String.eqb unit "ml" then quantity
  else if existsb (String.eqb unit) ["g"; "gr"; "gramme"; "grammes"; ""]
       then count_or_grams_without_fallback quantity unit food_name
  else quantity.

Definition parse_item_without_fallback (item : string) : option (Declaration A) :=
  match match_item item with
  | Some (quantity, unit, food_name) =>
      Some (declare get_food_info food_name
                    (to_grams_without_fallback quantity unit food_name))
  | None => None
  end.

Definition parse_step_without_fallback (results : list (Declaration A)) (item : string)
  : list (Declaration A) :=
  let item := Text.strip item in
  if String.eqb item "" then results
  else match parse_item_without_fallback item with
       | Some d => results ++ [d]
       | None => results
       end.

Definition parse_food_entry_without_fallback (text : string) : list (Declaration A) :=
  fold_left parse_step_without_fallback (split_items text) [].

End ParserReference.

(** The name and the grams of a declaration. *)
Definition name_and_grams {A : Type} (d : Declaration A) : string * A := fst d.

(** The days [prune(reference_date, retain_days)] is to delete, in the
    words of the specification: those strictly older than
    [reference_date - retain_days]. *)
Definition strictly_older_than_window (reference_date retain_days d : Z) : bool :=
  (d <? reference_date - retain_days)%Z.

(** The characters of [[,\n]]. *)
Definition is_separator_char (c : ascii) : bool :=
  Ascii.eqb c "," || Text.is_newline c.

(** The line feed. *)
Definition newline : string := String (ascii_of_nat 10) "".

Section Steps.
Context {A : Type} `{Number A}.

(** What one operation may do to a day: append entries and add their
    macros to the totals, one after the other; remove the last entry
    and subtract its macros from the totals; or drop the day, which
    then reads as an empty one.  (Appending no entry covers the
    operations that leave the day alone.) *)
Definition updated_together (d d' : Day A) : Prop :=
  (exists es, d' = mkDay (entries d ++ es)
                         (fold_left add_macros (macros <$> es) (totals d))) \/
  (exists es e, entries d = es ++ [e] /\
                d' = mkDay es (sub_macros (totals d) (macros e))) \/
  d' = empty_day.

End Steps.

(** ** More of the program *)

(** The clock reading of the operations that take one. *)
Definition op_clock (op : Op) : option Clock :=
  match op with
  | Message _ clock | Add _ clock | Undo clock | Status clock => Some clock
  | MidnightReset _ => None
  end.

Section Repeated.
Context {A : Type} `{Number A}.

(** [/undo] sent [n] times in a row: the answers, in order, and the
    state after the last one. *)
Fixpoint undo_many (clock : Clock) (n : nat) (st : State A) : list (Reply A) * State A :=
  match n with
  | O => ([], st)
  | S n' =>
      let '(reply, st1) := undo clock st in
      let '(replies, st2) := undo_many clock n' st1 in
      (reply :: replies, st2)
  end.

End Repeated.

(** A text without any of the digits 0 to 9. *)
Definition digit_free (s : string) : bool :=
  forallb (fun c => negb (Text.is_digit c)) (Text.chars s).

(** ** The key of a day *)

Module Civil.

(** The date a clock shows: a year, a month and a day of the month. *)
Record date := mkDate { year : Z; month : Z; mday : Z }.

(** The dates that exist, from the year 1000 to the year 9999 (the
    years that [%Y] writes with four digits on every platform). *)
Definition valid (c : date) : bool :=
  ((1000 <=? year c) && (year c <=? 9999)
   && (1 <=? month c) && (month c <=? 12)
   && (1 <=? mday c) && (mday c <=? Calendar.days_in_month (year c) (month c)))%Z.

(** [date.toordinal()] *)
Definition ordinal (c : date) : Z := Calendar.ordinal (year c) (month c) (mday c).

(** The character of a digit 0..9. *)
Definition digit_char (n : Z) : ascii := ascii_of_N (Z.to_N (48 + n)).

(** [%m], [%d]: two digits *)
Definition pad2 (n : Z) : list ascii :=
  [digit_char (n / 10); digit_char (n mod 10)].

(** [%Y]: four digits *)
Definition pad4 (n : Z) : list ascii :=
  [digit_char (n / 1000); digit_char (n / 100 mod 10);
   digit_char (n / 10 mod 10); digit_char (n mod 10)].

(** The month and the day as the key ends with them: [-%m-%d] *)
Definition month_day (m d : Z) : list ascii :=
  "-"%char :: pad2 m ++ "-"%char :: pad2 d.

End Civil.

(** [get_today_key], with [now] the date that
    [datetime.now(TIMEZONE)] shows: [now.strftime("%Y-%m-%d")] *)
Definition get_today_key (now : Civil.date) : string :=
  Text.text (Civil.pad4 (Civil.year now)
             ++ Civil.month_day (Civil.month now) (Civil.mday now)).

(** The part of [Calendar.date_format] that follows the year. *)
Definition date_format_tail : regex :=
  Patterns.Seq
    [Chr "-";
     Group 2 (Alt (Cat (Chr "1") (Calendar.range "0" "2"))
             (Alt (Cat (Chr "0") Calendar.digit19) Calendar.digit19));
     Chr "-";
     Group 3 (Alt (Cat (Chr "3") (Calendar.range "0" "1"))
             (Alt (Cat (Calendar.range "1" "2") Patterns.digit)
             (Alt (Cat (Chr "0") Calendar.digit19)
             (Alt Calendar.digit19 (Cat (Chr " ") Calendar.digit19)))))].

(** ** Texts that a pattern cannot tell apart *)

(** A change of characters [f] that no test of the pattern [r] sees:
    every class of [r] holds of [f c] exactly when it holds of [c], and
    so do the tests of [$] and [\b] when [r] has them. *)
Fixpoint respects (f : ascii -> ascii) (r : regex) : Prop :=
  match r with
  | Eps | Bol => True
  | Symbol p => forall c, p (f c) = p c
  | Cat r1 r2 | Alt r1 r2 => respects f r1 /\ respects f r2
  | Star r1 | LazyStar r1 | Group _ r1 => respects f r1
  | Eol => forall c, Text.is_newline (f c) = Text.is_newline c
  | WordBoundary => forall c, Text.is_word (f c) = Text.is_word c
  end.

Definition map_cursor (f : ascii -> ascii) (s : cursor) : cursor :=
  Cursor (map f (seen s)) (map f (ahead s)).

Definition map_captures (f : ascii -> ascii) (c : captures) : captures :=
  map (fun p => (fst p, map f (snd p))) c.

(** A comma becomes a point, as in [s.replace(',', '.')]. *)
Definition comma_to_point (c : ascii) : ascii :=
  if Ascii.eqb c "," then "."%char else c.

(** ** What is left of the goals *)

Section Goals.
Context {A : Type} `{Number A}.

(** Lines 26-31: the dictionary [DAILY_GOALS]. *)
Definition DAILY_GOALS : Macros A :=
  mkMacros (num_of_Z 3100) (num_of_Z 160) (num_of_Z 90) (num_of_Z 400).

(** [get_remaining]: the dictionary it returns and the state it leaves,
    today's day being created when it is not there. *)
Definition get_remaining (clock : Clock) (st : State A) : Macros A * State A :=
  let today := today clock in
  let st := with_data st (init_day today (daily_data st)) in
  let totals := totals (day_of (daily_data st) today) in
  (sub_macros DAILY_GOALS totals, st).

End Goals.

(** ** Texts of the ASCII range *)

(** [s.isascii()]: every character of [s] is below 128.  On such a
    text [\d] is 0-9, [\s] and [str.strip] know the white space of
    [Text.is_space] only, and [str.lower] changes A-Z only. *)
Definition isascii (s : string) : bool :=
  forallb (fun c => (Text.code c <? 128)%N) (Text.chars s).

Definition upper_char (c : ascii) : ascii :=
  if ((97 <=? Text.code c) && (Text.code c <=? 122))%N
  then ascii_of_N (Text.code c - 32) else c.

(** [s.upper()] on a text of the ASCII range *)
Definition upper (s : string) : string :=
  Text.text (map upper_char (Text.chars s)).

(** * Properties *)

#[export] Instance Qc_ExactCancel : ExactCancel Qc.
Proof. intros x y. simpl. ring. Qed.

(** ** The ledger *)

Section PopFacts.
Context {X : Type}.

Lemma pop_snoc (l : list X) (x : X) : pop (l ++ [x]) = Some (l, x).
Proof.
  induction l as [|y l IH]; simpl; [reflexivity|].
  rewrite IH. reflexivity.
Qed.

Lemma pop_None (l : list X) : pop l = None -> l = [].
Proof.
  destruct l as [|x l]; simpl; [reflexivity|].
  destruct (pop l) as [[r y]|]; discriminate.
Qed.

Lemma pop_Some (l r : list X) (x : X) : pop l = Some (r, x) -> l = r ++ [x].
Proof.
  revert r. induction l as [|y l IH]; simpl; intros r Hp; [discriminate|].
  destruct (pop l) as [[r' z]|] eqn:E.
  - inversion Hp; subst. rewrite (IH r' eq_refl). reflexivity.
  - inversion Hp; subst. apply pop_None in E. subst. reflexivity.
Qed.
End PopFacts.

Section LedgerFacts.
Context {A : Type} `{Number A}.

Lemma sum_macros_snoc (ms : list (Macros A)) (m : Macros A) :
  sum_macros (ms ++ [m]) = add_macros (sum_macros ms) m.
Proof. unfold sum_macros. rewrite fold_left_app. reflexivity. Qed.

Lemma sum_entries_snoc (es : list (Entry A)) (e : Entry A) :
  sum_macros (macros <$> es ++ [e]) = add_macros (sum_macros (macros <$> es)) (macros e).
Proof. rewrite fmap_app. apply sum_macros_snoc. Qed.

Lemma sub_add_macros `{!ExactCancel A} (t m : Macros A) :
  sub_macros (add_macros t m) m = t.
Proof.
  destruct t, m. unfold sub_macros, add_macros. simpl.
  rewrite !add_sub_cancel. reflexivity.
Qed.

Lemma day_of_init_day (data : gmap string (Day A)) (k k' : string) :
  day_of (init_day k data) k' = day_of data k'.
Proof.
  unfold init_day, day_of. destruct (data !! k) eqn:E; [reflexivity|].
  destruct (decide (k = k')) as [->|Hne].
  - rewrite lookup_insert_eq, E. reflexivity.
  - rewrite lookup_insert_ne by exact Hne. reflexivity.
Qed.

Lemma init_day_lookup (data : gmap string (Day A)) (k : string) :
  init_day k data !! k = Some (day_of data k).
Proof.
  unfold init_day, day_of. destruct (data !! k) eqn:E; simpl.
  - exact E.
  - apply lookup_insert_eq.
Qed.

Lemma init_day_present (data : gmap string (Day A)) (k : string) :
  is_Some (data !! k) -> init_day k data = data.
Proof. intros [d Hd]. unfold init_day. rewrite Hd. reflexivity. Qed.

Lemma init_day_idempotent (data : gmap string (Day A)) (k : string) :
  init_day k (init_day k data) = init_day k data.
Proof. apply init_day_present. rewrite init_day_lookup. eauto. Qed.

End LedgerFacts.

Section Consistency.
Context {A : Type} `{Number A}.
Variable STANDARD_UNITS : list (string * A).
Variable get_food_info : gmap string (A * A * A * A) -> string -> option (A * A * A * A).
Variable float_of_text : string -> option A.
Variable format_0f : A -> string.

Lemma consistent_empty_day : totals (empty_day (A:=A)) = sum_macros (macros <$> entries empty_day).
Proof. reflexivity. Qed.

Lemma consistent_day_of (st : State A) (k : string) :
  consistent st ->
  totals (day_of (daily_data st) k) = sum_macros (macros <$> entries (day_of (daily_data st) k)).
Proof.
  intros Hc. unfold day_of. destruct (daily_data st !! k) as [d|] eqn:E; simpl.
  - exact (Hc k d E).
  - reflexivity.
Qed.

Lemma consistent_init_day (st : State A) (k : string) :
  consistent st -> consistent (with_data st (init_day k (daily_data st))).
Proof.
  intros Hc k' d. simpl. unfold init_day.
  destruct (daily_data st !! k) eqn:E; [apply Hc|].
  destruct (decide (k = k')) as [->|Hne].
  - rewrite lookup_insert_eq. intros [= <-]. reflexivity.
  - rewrite lookup_insert_ne by exact Hne. apply Hc.
Qed.

Lemma consistent_record_entry (st : State A) (k : string) (e : Entry A) :
  consistent st -> consistent (record_entry k e st).
Proof.
  intros Hc k' d. simpl.
  destruct (decide (k = k')) as [->|Hne].
  - rewrite lookup_insert_eq. intros [= <-]. simpl.
    rewrite sum_entries_snoc, (consistent_day_of st k' Hc). reflexivity.
  - rewrite lookup_insert_ne by exact Hne. apply Hc.
Qed.

Lemma consistent_undo `{!ExactCancel A} (st : State A) (clock : Clock) :
  consistent st -> consistent (snd (undo clock st)).
Proof.
  intros Hc. apply (consistent_init_day st (today clock)) in Hc.
  pose proof (consistent_day_of _ (today clock) Hc) as Hd. simpl in Hd.
  unfold undo. cbv zeta.
  destruct (pop (entries (day_of (init_day (today clock) (daily_data st)) (today clock))))
    as [[r l]|] eqn:E; simpl; [|exact Hc].
  intros k' d. simpl.
  destruct (decide (today clock = k')) as [<-|Hne].
  - rewrite lookup_insert_eq. intros [= <-]. simpl.
    rewrite Hd, (pop_Some _ _ _ E), sum_entries_snoc.
    apply sub_add_macros.
  - rewrite lookup_insert_ne by exact Hne. apply Hc.
Qed.

Lemma consistent_record_declaration (clock : Clock) (d : Declaration A)
      (acc : State A * list (Entry A) * list string) :
  consistent (fst (fst acc)) ->
  consistent (fst (fst (record_declaration clock acc d))).
Proof.
  destruct acc as [[st rec] nf], d as [[name grams] [m|]]; simpl; [|tauto].
  apply consistent_record_entry.
Qed.

Lemma consistent_handle_food_message (text : string) (clock : Clock) (st : State A) :
  consistent st ->
  consistent (snd (handle_food_message STANDARD_UNITS get_food_info text clock st)).
Proof.
  intros Hc. unfold handle_food_message.
  destruct (Text.starts_with _ _); [exact Hc|].
  apply (consistent_init_day st (today clock)) in Hc.
  set (st1 := with_data st (init_day (today clock) (daily_data st))) in *.
  destruct (parse_food_entry _ _ text) as [|d ds] eqn:E; [exact Hc|].
  assert (Hfold : forall l acc, consistent (fst (fst acc)) ->
              consistent (fst (fst (fold_left (record_declaration clock) l acc)))).
  { induction l as [|x l IH]; intros acc Hacc; simpl; [exact Hacc|].
    apply IH, consistent_record_declaration, Hacc. }
  specialize (Hfold (d :: ds) (st1, [], []) Hc).
  destruct (fold_left _ (d :: ds) _) as [[st' rec] nf]. exact Hfold.
Qed.

Lemma consistent_add_food (args : list string) (clock : Clock) (st : State A) :
  consistent st ->
  consistent (snd (add_food float_of_text format_0f args clock st)).
Proof.
  intros Hc. unfold add_food. destruct args as [|a args]; [exact Hc|].
  destruct (Text.has_char _ _).
  - unfold add_to_database.
    repeat (match goal with
            | |- context [match ?x with _ => _ end] => destruct x
            end; try exact Hc).
  - destruct (quick_add_fields _) as [[grams m]|]; [|exact Hc].
    apply consistent_record_entry, consistent_init_day, Hc.
Qed.

Lemma fold_delete_lookup (keys : list string) (data : gmap string (Day A)) (k : string) :
  fold_left (fun data key => delete key data) keys data !! k =
  if bool_decide (k ∈ keys) then None else data !! k.
Proof.
  revert data. induction keys as [|x keys IH]; intros data; simpl; [reflexivity|].
  rewrite IH. destruct (decide (k = x)) as [->|Hne].
  - rewrite lookup_delete_eq.
    rewrite (bool_decide_eq_true_2 (x ∈ x :: keys)) by (left).
    destruct (bool_decide _); reflexivity.
  - rewrite lookup_delete_ne by (intros ->; exact (Hne eq_refl)).
    destruct (bool_decide (k ∈ keys)) eqn:E.
    + apply bool_decide_eq_true_1 in E.
      rewrite (bool_decide_eq_true_2 (k ∈ x :: keys)) by (right; exact E). reflexivity.
    + apply bool_decide_eq_false_1 in E.
      rewrite (bool_decide_eq_false_2 (k ∈ x :: keys)); [reflexivity|].
      intros Hin. apply elem_of_cons in Hin as [Heq|Hin]; [exact (Hne Heq)|exact (E Hin)].
Qed.

(** What [midnight_reset] leaves under a key: nothing when the key
    has expired, what was there before otherwise. *)
Lemma midnight_reset_lookup (now : Calendar.datetime) (st : State A) (k : string) :
  daily_data (midnight_reset now st) !! k =
  if expired now k then None else daily_data st !! k.
Proof.
  unfold midnight_reset. simpl. rewrite fold_delete_lookup.
  destruct (expired now k) eqn:Ex.
  - destruct (daily_data st !! k) as [d|] eqn:E.
    + rewrite bool_decide_eq_true_2; [reflexivity|].
      apply list_elem_of_filter. split; [exact Ex|].
      apply list_elem_of_fmap. exists (k, d). split; [reflexivity|].
      apply elem_of_map_to_list. exact E.
    + destruct (bool_decide _); reflexivity.
  - rewrite bool_decide_eq_false_2; [reflexivity|].
    intros Hin. apply list_elem_of_filter in Hin as [Hex _]. congruence.
Qed.

Lemma consistent_midnight_reset (now : Calendar.datetime) (st : State A) :
  consistent st -> consistent (midnight_reset now st).
Proof.
  intros Hc k d. rewrite midnight_reset_lookup.
  destruct (expired now k); [discriminate|apply Hc].
Qed.

Lemma consistent_apply_op (st : State A) (op : Op) :
  ExactCancel A \/ is_undo op = false ->
  consistent st ->
  consistent (apply_op STANDARD_UNITS get_food_info float_of_text format_0f st op).
Proof.
  intros Hok Hc. destruct op; simpl.
  - apply consistent_handle_food_message, Hc.
  - apply consistent_add_food, Hc.
  - destruct Hok as [Hex|Hno]; [|discriminate]. apply consistent_undo, Hc.
  - apply consistent_init_day, Hc.
  - apply consistent_midnight_reset, Hc.
Qed.

(** The totals match the entries in every state a fresh process can
    reach, in exact arithmetic or without undo. *)
Lemma reachable_consistent (ops : list Op) (database : gmap string (A * A * A * A)) :
  ExactCancel A \/ forallb (fun op => negb (is_undo op)) ops = true ->
  consistent (run STANDARD_UNITS get_food_info float_of_text format_0f ops (initial database)).
Proof.
  intros Hok. unfold run.
  assert (Hinit : consistent (initial database)).
  { intros k d. simpl. rewrite lookup_empty. discriminate. }
  revert Hinit. generalize (initial database) as st.
  induction ops as [|op ops IH]; intros st Hc; simpl; [exact Hc|].
  apply IH.
  - destruct Hok as [Hex|Hno]; [left; exact Hex|right].
    simpl in Hno. apply andb_true_iff in Hno. tauto.
  - apply consistent_apply_op; [|exact Hc].
    destruct Hok as [Hex|Hno]; [left; exact Hex|right].
    simpl in Hno. apply andb_true_iff in Hno. destruct Hno as [Hn _].
    apply negb_true_iff in Hn. exact Hn.
Qed.

End Consistency.

(** Two binary64 numbers that [==] tells apart are different. *)
Lemma float_differ (x y : float) :
  PrimFloat.eqb x y = false -> PrimFloat.eqb y y = true -> x <> y.
Proof. intros Hxy Hyy ->. congruence. Qed.

Section UndoFacts.
Context {A : Type} `{Number A}.

Lemma record_entry_day (k : string) (e : Entry A) (st : State A) :
  daily_data (record_entry k e st) !! k =
  Some (mkDay (entries (day_of (daily_data st) k) ++ [e])
              (add_macros (totals (day_of (daily_data st) k)) (macros e))).
Proof. simpl. apply lookup_insert_eq. Qed.

Lemma day_of_record_entry (k : string) (e : Entry A) (st : State A) :
  day_of (daily_data (record_entry k e st)) k =
  mkDay (entries (day_of (daily_data st) k) ++ [e])
        (add_macros (totals (day_of (daily_data st) k)) (macros e)).
Proof. unfold day_of at 1. rewrite record_entry_day. reflexivity. Qed.

Lemma record_entry_other (k k' : string) (e : Entry A) (st : State A) :
  k <> k' -> daily_data (record_entry k e st) !! k' = daily_data st !! k'.
Proof. intros Hne. simpl. apply lookup_insert_ne, Hne. Qed.

(** [undo] on a day whose entries end with [e]. *)
Lemma undo_snoc (clock : Clock) (st : State A) (es : list (Entry A)) (e : Entry A) :
  entries (day_of (daily_data st) (today clock)) = es ++ [e] ->
  undo clock st =
  (Undone e,
   with_data st
     (<[today clock := mkDay es (sub_macros (totals (day_of (daily_data st) (today clock)))
                                            (macros e))]>
        (init_day (today clock) (daily_data st)))).
Proof.
  intros He. unfold undo. cbv zeta.
  rewrite day_of_init_day, He, pop_snoc. reflexivity.
Qed.

(** [undo] on a day without entries. *)
Lemma undo_empty (clock : Clock) (st : State A) :
  entries (day_of (daily_data st) (today clock)) = [] ->
  undo clock st = (NothingToUndo, with_data st (init_day (today clock) (daily_data st))).
Proof.
  intros He. unfold undo. cbv zeta.
  rewrite day_of_init_day, He. reflexivity.
Qed.

(** C2, as it holds: [undo] right after the recording of an entry
    answers with that entry, gives the day back its list of entries,
    leaves every other day alone, and leaves in each total t the
    value (t + m) - m of the program's addition and subtraction, which
    is t when the arithmetic is exact.  Nothing is said of how far
    (t + m) - m is from t otherwise. *)
Theorem undo_after_record (clock : Clock) (e : Entry A) (st : State A) :
  let before := day_of (daily_data st) (today clock) in
  let result := undo clock (record_entry (today clock) e st) in
  let after := day_of (daily_data (snd result)) (today clock) in
  fst result = Undone e /\
  entries after = entries before /\
  totals after
  = mkMacros
      (num_sub (num_add (kcal (totals before)) (kcal (macros e))) (kcal (macros e)))
      (num_sub (num_add (proteines (totals before)) (proteines (macros e)))
               (proteines (macros e)))
      (num_sub (num_add (lipides (totals before)) (lipides (macros e)))
               (lipides (macros e)))
      (num_sub (num_add (glucides (totals before)) (glucides (macros e)))
               (glucides (macros e))) /\
  (forall k, k <> today clock ->
             daily_data (snd result) !! k = daily_data st !! k) /\
  (ExactCancel A -> after = before).
Proof.
  intros before result after.
  assert (Hrec : entries (day_of (daily_data (record_entry (today clock) e st)) (today clock))
                 = entries before ++ [e]).
  { rewrite day_of_record_entry. reflexivity. }
  assert (Htot : totals (day_of (daily_data (record_entry (today clock) e st)) (today clock))
                 = add_macros (totals before) (macros e)).
  { rewrite day_of_record_entry. reflexivity. }
  assert (Hafter : after = mkDay (entries before)
                     (sub_macros (add_macros (totals before) (macros e)) (macros e))).
  { unfold after, result. rewrite (undo_snoc _ _ _ _ Hrec), Htot.
    unfold day_of at 1. simpl. rewrite lookup_insert_eq. reflexivity. }
  repeat split.
  - unfold result. rewrite (undo_snoc _ _ _ _ Hrec). reflexivity.
  - rewrite Hafter. reflexivity.
  - rewrite Hafter. reflexivity.
  - intros k Hne. unfold result. rewrite (undo_snoc _ _ _ _ Hrec). simpl.
    rewrite lookup_insert_ne by (intros Heq; exact (Hne (eq_sym Heq))).
    rewrite init_day_present by (rewrite lookup_insert_eq; eauto).
    apply lookup_insert_ne. intros Heq; exact (Hne (eq_sym Heq)).
  - intros Hex. rewrite Hafter, sub_add_macros. destruct before; reflexivity.
Qed.

End UndoFacts.

(** C2 in use, in exact arithmetic: a total of 1/10, an entry of 1/5
    recorded and undone, and the day is as it was. *)
Lemma undo_after_record_witness :
  let st := Example.run (A:=Qc) [Add ["0.1kcal"; "0p"; "0l"; "0g"] Example.clock] in
  let e := mkEntry "x" (num_of_Z 100)
                   (mkMacros (num_of_decimal 2 1) (num_of_Z 0) (num_of_Z 0) (num_of_Z 0))
                   "12:31" in
  day_of (daily_data (snd (undo Example.clock (record_entry "2024-03-15" e st)))) "2024-03-15"
  = day_of (daily_data st) "2024-03-15".
Proof.
  intros st e.
  exact (proj2 (proj2 (proj2 (proj2 (undo_after_record Example.clock e st)))) Qc_ExactCancel).
Defined.

(** C2 as stated fails in the arithmetic of the program: with a total
    of 0.1 kcal (the binary64 0x1.999999999999ap-4), the quick add of
    0.2 kcal followed by [undo] leaves a total of 0.10000000000000003
    kcal (0x1.999999999999cp-4). *)
Lemma undo_does_not_restore_totals :
  let st := Example.run (A:=float) [Add ["0.1kcal"; "0p"; "0l"; "0g"] Example.clock] in
  let st' := Example.run (A:=float) Example.add_add_undo in
  entries (day_of (daily_data st') "2024-03-15") = entries (day_of (daily_data st) "2024-03-15") /\
  kcal (totals (day_of (daily_data st) "2024-03-15")) = 0x1.999999999999ap-4%float /\
  kcal (totals (day_of (daily_data st') "2024-03-15")) = 0x1.999999999999cp-4%float /\
  totals (day_of (daily_data st') "2024-03-15") <> totals (day_of (daily_data st) "2024-03-15").
Proof.
  cbv zeta. repeat split; try (vm_compute; reflexivity).
  intros Heq. apply (f_equal kcal) in Heq.
  revert Heq. apply float_differ; vm_compute; reflexivity.
Qed.

Section RecordingFacts.
Context {A : Type} `{Number A}.
Variable STANDARD_UNITS : list (string * A).
Variable get_food_info : gmap string (A * A * A * A) -> string -> option (A * A * A * A).
Variable float_of_text : string -> option A.
Variable format_0f : A -> string.

(** The loop of [handle_food_message] records the entries of the
    declarations the catalog resolves, in order, and lists the names
    of the others. *)
Lemma fold_record_declaration (clock : Clock) (ds : list (Declaration A))
      (st : State A) (rec : list (Entry A)) (nf : list string) :
  fold_left (record_declaration clock) ds (st, rec, nf) =
  (record_entries (today clock) (resolved_entries clock ds) st,
   rec ++ resolved_entries clock ds,
   nf ++ unresolved_names ds).
Proof.
  revert st rec nf. induction ds as [|[[name grams] [m|]] ds IH]; intros st rec nf; simpl.
  - rewrite !app_nil_r. reflexivity.
  - rewrite IH. unfold resolved_entries, unresolved_names. simpl.
    rewrite <- !app_assoc. reflexivity.
  - rewrite IH. unfold resolved_entries, unresolved_names. simpl.
    rewrite <- !app_assoc. reflexivity.
Qed.

Lemma record_entries_day (k : string) (es : list (Entry A)) (st : State A) :
  day_of (daily_data (record_entries k es st)) k =
  mkDay (entries (day_of (daily_data st) k) ++ es)
        (fold_left add_macros (macros <$> es) (totals (day_of (daily_data st) k))).
Proof.
  revert st. induction es as [|e es IH]; intros st.
  - simpl. rewrite app_nil_r. destruct (day_of _ _); reflexivity.
  - change (record_entries k (e :: es) st) with (record_entries k es (record_entry k e st)).
    rewrite IH, day_of_record_entry. simpl.
    rewrite <- app_assoc. reflexivity.
Qed.

Lemma record_entries_other (k k' : string) (es : list (Entry A)) (st : State A) :
  k <> k' -> daily_data (record_entries k es st) !! k' = daily_data st !! k'.
Proof.
  intros Hne. revert st. induction es as [|e es IH]; intros st; [reflexivity|].
  change (record_entries k (e :: es) st) with (record_entries k es (record_entry k e st)).
  rewrite IH. apply record_entry_other, Hne.
Qed.

(** What [handle_food_message] does with a text that is not a
    command and of which something was parsed. *)
Lemma handle_food_message_parsed (text : string) (clock : Clock) (st : State A) :
  let st1 := with_data st (init_day (today clock) (daily_data st)) in
  let parsed := parse_food_entry STANDARD_UNITS (get_food_info (FOODS_DATABASE st)) text in
  Text.starts_with ["/"%char] (Text.chars text) = false ->
  parsed <> [] ->
  handle_food_message STANDARD_UNITS get_food_info text clock st =
  (Recorded (resolved_entries clock parsed) (unresolved_names parsed),
   record_entries (today clock) (resolved_entries clock parsed) st1).
Proof.
  intros st1 parsed Hcmd Hne. unfold handle_food_message. rewrite Hcmd.
  fold st1. change (FOODS_DATABASE st1) with (FOODS_DATABASE st). fold parsed.
  destruct parsed as [|d ds] eqn:E; [congruence|].
  rewrite fold_record_declaration. reflexivity.
Qed.

(** Every answer [Recorded] comes with the state in which exactly the
    listed entries were recorded. *)
Lemma handle_food_message_recorded (text : string) (clock : Clock) (st st' : State A)
      (rec : list (Entry A)) (nf : list string) :
  handle_food_message STANDARD_UNITS get_food_info text clock st = (Recorded rec nf, st') ->
  st' = record_entries (today clock) rec
          (with_data st (init_day (today clock) (daily_data st))).
Proof.
  unfold handle_food_message. destruct (Text.starts_with _ _); [discriminate|].
  simpl. destruct (parse_food_entry _ _ text) as [|d ds]; [discriminate|].
  rewrite fold_record_declaration. intros [= <- _ <-]. reflexivity.
Qed.

(** Every answer [QuickAdded] comes with the state in which the entry
    was recorded. *)
Lemma add_food_recorded (args : list string) (clock : Clock) (st st' : State A)
      (e : Entry A) :
  add_food float_of_text format_0f args clock st = (QuickAdded e, st') ->
  st' = record_entry (today clock) e
          (with_data st (init_day (today clock) (daily_data st))).
Proof.
  unfold add_food. destruct args as [|a args]; [discriminate|].
  destruct (Text.has_char _ _).
  - unfold add_to_database.
    repeat (match goal with
            | |- context [match ?x with _ => _ end] => destruct x
            end; try discriminate).
  - destruct (quick_add_fields _) as [[grams m]|]; [|discriminate].
    intros [= <- <-]. reflexivity.
Qed.

(** C3, as it holds: [undo] on a day without entries answers that
    there is nothing to undo and changes no record, nor [last_entry],
    nor the food table: the state is the same when today's record was
    there, and gains today's record, without entries and with totals of
    zero, when it was not.  On a day whose last entry is [e] it answers
    with [e], leaves the entries before [e], leaves in each of the four
    totals the total less the macro of [e] of that key, and leaves the
    other days, [last_entry] and the food table alone; and the last
    entry is the one the last recording made, by a text message or by a
    quick add. *)
Theorem undo_removes_last_entry (clock : Clock) (st : State A) :
  let day := day_of (daily_data st) (today clock) in
  let result := undo clock st in
  (entries day = [] ->
     fst result = NothingToUndo /\
     (forall k, day_of (daily_data (snd result)) k = day_of (daily_data st) k) /\
     (is_Some (daily_data st !! today clock) -> snd result = st) /\
     (daily_data st !! today clock = None ->
        snd result
        = mkState (<[today clock := mkDay [] (mkMacros (num_of_Z 0) (num_of_Z 0)
                                                       (num_of_Z 0) (num_of_Z 0))]>
                     (daily_data st))
                  (last_entry st) (FOODS_DATABASE st))) /\
  (forall es e, entries day = es ++ [e] ->
     fst result = Undone e /\
     daily_data (snd result) !! today clock =
       Some (mkDay es
               (mkMacros (num_sub (kcal (totals day)) (kcal (macros e)))
                         (num_sub (proteines (totals day)) (proteines (macros e)))
                         (num_sub (lipides (totals day)) (lipides (macros e)))
                         (num_sub (glucides (totals day)) (glucides (macros e))))) /\
     (forall k, k <> today clock ->
                daily_data (snd result) !! k = daily_data st !! k) /\
     last_entry (snd result) = last_entry st /\
     FOODS_DATABASE (snd result) = FOODS_DATABASE st) /\
  (forall text st0 rec e nf,
     handle_food_message STANDARD_UNITS get_food_info text clock st0
       = (Recorded (rec ++ [e]) nf, st) ->
     fst result = Undone e) /\
  (forall args st0 e,
     add_food float_of_text format_0f args clock st0 = (QuickAdded e, st) ->
     fst result = Undone e).
Proof.
  intros day result. unfold result. split; [|split; [|split]].
  - intros He. rewrite (undo_empty _ _ He). simpl. split; [reflexivity|split; [|split]].
    + intros k. apply day_of_init_day.
    + intros Hsome. rewrite (init_day_present _ _ Hsome). destruct st; reflexivity.
    + intros Hnone. unfold with_data, init_day. rewrite Hnone. reflexivity.
  - intros es e He. rewrite (undo_snoc _ _ _ _ He). simpl.
    split; [reflexivity|split; [|split; [|split; reflexivity]]].
    + apply lookup_insert_eq.
    + intros k Hne.
      rewrite lookup_insert_ne by (intros Heq; exact (Hne (eq_sym Heq))).
      unfold init_day. destruct (daily_data st !! today clock); [reflexivity|].
      apply lookup_insert_ne. intros Heq; exact (Hne (eq_sym Heq)).
  - intros text st0 rec e nf Hh. apply handle_food_message_recorded in Hh.
    assert (He : entries day = (entries (day_of (init_day (today clock) (daily_data st0)) (today clock)) ++ rec) ++ [e]).
    { unfold day. rewrite Hh, record_entries_day. simpl. apply app_assoc. }
    rewrite (undo_snoc _ _ _ _ He). reflexivity.
  - intros args st0 e Ha. apply add_food_recorded in Ha.
    assert (He : entries day = entries (day_of (init_day (today clock) (daily_data st0)) (today clock)) ++ [e]).
    { unfold day. rewrite Ha, day_of_record_entry. reflexivity. }
    rewrite (undo_snoc _ _ _ _ He). reflexivity.
Qed.

End RecordingFacts.

(** [undo] run on a day of two entries with totals of 500 kcal, 30 g,
    20 g and 60 g, the last entry being a quick add of 150 kcal, 10 g,
    5 g and 8 g. *)
Lemma undo_subtracts_the_macros_of_the_last_entry :
  let e1 := mkEntry "rice" 200%float (mkMacros 350 20 15 52)%float "12:00" in
  let e2 := mkEntry "ajout manuel (30g)" 30%float (mkMacros 150 10 5 8)%float "12:30" in
  let st := mkState {[ "2024-03-15" := mkDay [e1; e2] (mkMacros 500 30 20 60)%float ]}
                    (Some e2) Example.FOODS in
  undo Example.clock st
  = (Undone e2,
     mkState {[ "2024-03-15" := mkDay [e1] (mkMacros 350 20 15 52)%float ]}
             (Some e2) Example.FOODS).
Proof. vm_compute. reflexivity. Qed.

(** C3 in use: on a day of two entries with totals of 500 kcal, 30 g,
    20 g and 60 g, [undo] takes back the last entry, of 150 kcal, 10 g,
    5 g and 8 g, and leaves the first entry and the totals less these;
    and after the message "rice 50", [undo] answers with the entry of
    the rice. *)
Lemma undo_removes_last_entry_witness :
  (let e1 := mkEntry "rice" 200%float (mkMacros 350 20 15 52)%float "12:00" in
   let e2 := mkEntry "ajout manuel (30g)" 30%float (mkMacros 150 10 5 8)%float "12:30" in
   let st := mkState {[ "2024-03-15" := mkDay [e1; e2] (mkMacros 500 30 20 60)%float ]}
                     (Some e2) Example.FOODS in
   fst (undo Example.clock st) = Undone e2 /\
   daily_data (snd (undo Example.clock st)) !! "2024-03-15"
   = Some (mkDay [e1] (mkMacros (500 - 150) (30 - 10) (20 - 5) (60 - 8))%float)) /\
  fst (undo Example.clock
         (snd (handle_food_message (A:=float) Example.UNITS Example.lookup_exact
                 "rice 50" Example.clock (initial Example.FOODS))))
  = Undone (mkEntry "rice" 50%float
              (mkMacros 65%float (num_mul (num_of_decimal 27 1) (num_div 50 100)%float)
                        (num_mul (num_of_decimal 3 1) (num_div 50 100)%float) 14%float)
              "12:30").
Proof.
  split.
  - intros e1 e2 st.
    pose proof (proj1 (proj2 (undo_removes_last_entry (A:=float) Example.UNITS
                                Example.lookup_exact Example.no_float Example.no_label
                                Example.clock st))
                      [e1] e2 ltac:(vm_compute; reflexivity)) as Hu.
    split; [exact (proj1 Hu)|exact (proj1 (proj2 Hu))].
  - refine (proj1 (proj2 (proj2 (undo_removes_last_entry (A:=float) Example.UNITS
                           Example.lookup_exact Example.no_float Example.no_label
                           Example.clock _)))
                  "rice 50" (initial Example.FOODS) [] _ [] _).
    vm_compute. reflexivity.
Defined.

(** C3 as stated fails on a day that has no record yet: in a process
    that has just started, [undo] answers that there is nothing to
    undo, and the state it leaves is not the state it found: today has
    a record, empty, that it had not. *)
Lemma undo_on_a_day_without_record_adds_it :
  let st := initial (A:=float) Example.FOODS in
  let result := undo Example.clock st in
  fst result = NothingToUndo /\
  daily_data st !! "2024-03-15" = None /\
  daily_data (snd result) !! "2024-03-15" = Some (mkDay [] (mkMacros 0 0 0 0)%float) /\
  snd result <> st.
Proof.
  cbv zeta. repeat split; try (vm_compute; reflexivity).
  intros Heq. apply (f_equal (fun s => daily_data s !! "2024-03-15")) in Heq.
  vm_compute in Heq. discriminate Heq.
Qed.

Section StepFacts.
Context {A : Type} `{Number A}.
Variable STANDARD_UNITS : list (string * A).
Variable get_food_info : gmap string (A * A * A * A) -> string -> option (A * A * A * A).
Variable float_of_text : string -> option A.
Variable format_0f : A -> string.

Lemma updated_together_same (d d' : Day A) : d' = d -> updated_together d d'.
Proof.
  intros ->. left. exists []. simpl. rewrite app_nil_r. destruct d; reflexivity.
Qed.

Lemma day_of_same_lookup (data data' : gmap string (Day A)) (k : string) :
  data' !! k = data !! k -> day_of data' k = day_of data k.
Proof. unfold day_of. intros ->. reflexivity. Qed.

Lemma record_entries_step (today k : string) (es : list (Entry A)) (st : State A) :
  updated_together (day_of (daily_data st) k)
                   (day_of (daily_data (record_entries today es st)) k).
Proof.
  destruct (decide (today = k)) as [->|Hne].
  - left. exists es. apply record_entries_day.
  - apply updated_together_same, day_of_same_lookup, record_entries_other, Hne.
Qed.

Lemma with_init_day_step (today k : string) (st : State A) (d' : Day A) :
  updated_together
    (day_of (daily_data (with_data st (init_day today (daily_data st)))) k) d' ->
  updated_together (day_of (daily_data st) k) d'.
Proof. simpl. rewrite day_of_init_day. tauto. Qed.

Lemma undo_step (clock : Clock) (st : State A) (k : string) :
  updated_together (day_of (daily_data st) k)
                   (day_of (daily_data (snd (undo clock st))) k).
Proof.
  destruct (pop (entries (day_of (daily_data st) (today clock)))) as [[es e]|] eqn:E.
  - apply pop_Some in E. rewrite (undo_snoc _ _ _ _ E). simpl.
    destruct (decide (today clock = k)) as [<-|Hne].
    + right. left. exists es, e. split; [exact E|].
      unfold day_of at 1. rewrite lookup_insert_eq. reflexivity.
    + apply updated_together_same. unfold day_of at 1.
      rewrite lookup_insert_ne by exact Hne. apply day_of_init_day.
  - apply pop_None in E. rewrite (undo_empty _ _ E). simpl.
    apply updated_together_same, day_of_init_day.
Qed.

Lemma midnight_reset_step (now : Calendar.datetime) (st : State A) (k : string) :
  updated_together (day_of (daily_data st) k)
                   (day_of (daily_data (midnight_reset now st)) k).
Proof.
  unfold day_of at 2. rewrite midnight_reset_lookup.
  destruct (expired now k); [right; right; reflexivity|].
  apply updated_together_same. reflexivity.
Qed.

(** Every operation changes the entries and the totals of a day
    together. *)
Lemma apply_op_step (st : State A) (op : Op) (k : string) :
  updated_together
    (day_of (daily_data st) k)
    (day_of (daily_data (apply_op STANDARD_UNITS get_food_info float_of_text format_0f st op)) k).
Proof.
  destruct op as [text clock|args clock|clock|clock|now]; simpl.
  - unfold handle_food_message.
    destruct (Text.starts_with _ _); [apply updated_together_same; reflexivity|].
    destruct (parse_food_entry _ _ text) as [|d ds].
    + apply updated_together_same. simpl. apply day_of_init_day.
    + rewrite fold_record_declaration. cbn [snd].
      apply (with_init_day_step (today clock)), record_entries_step.
  - unfold add_food. destruct args as [|a args];
      [apply updated_together_same; reflexivity|].
    destruct (Text.has_char _ _).
    + unfold add_to_database.
      repeat (match goal with
              | |- context [match ?x with _ => _ end] => destruct x
              end; try (apply updated_together_same; reflexivity)).
    + destruct (quick_add_fields _) as [[grams m]|];
        [|apply updated_together_same; reflexivity].
      cbn [snd]. apply (with_init_day_step (today clock)).
      apply (record_entries_step (today clock) k [_]).
  - apply undo_step.
  - apply updated_together_same, day_of_init_day.
  - apply midnight_reset_step.
Qed.

End StepFacts.

(** C1, as it holds: every operation on the ledger (a text message, a
    quick add, an undo, a status request, the nightly clean-up) changes
    the entries and the totals of a day together: it appends entries
    and adds their macros, or removes the last entry and subtracts its
    macros, or drops the day.  From the state of a fresh process, every
    history of such operations leaves, on every day, totals equal to the
    sum (key by key, from zero, in order) of the macros of the day's
    entries, provided the arithmetic is exact ([(x + y) - y = x]) or the
    history contains no undo. *)
Theorem totals_match_entries :
  forall (A : Type) (HA : Number A) STANDARD_UNITS get_food_info float_of_text format_0f,
    (forall (st : State A) op k,
       updated_together
         (day_of (daily_data st) k)
         (day_of (daily_data (apply_op STANDARD_UNITS get_food_info float_of_text
                                       format_0f st op)) k)) /\
    (forall ops database,
       ExactCancel A \/ forallb (fun op => negb (is_undo op)) ops = true ->
       consistent (run STANDARD_UNITS get_food_info float_of_text format_0f ops
                       (initial database))).
Proof.
  intros A HA STANDARD_UNITS get_food_info float_of_text format_0f. split.
  - apply apply_op_step.
  - apply reachable_consistent.
Qed.

(** C1 in use: the totals match the entries after a history without
    undo in binary64, and after a history with an undo in exact
    arithmetic. *)
Lemma totals_match_entries_witness :
  consistent (Example.run (A:=float) Example.day_of_meals) /\
  consistent (Example.run (A:=Qc) Example.add_add_undo).
Proof.
  split.
  - apply totals_match_entries. right. reflexivity.
  - apply totals_match_entries. left. exact Qc_ExactCancel.
Defined.

(** C1 as stated fails in the arithmetic of the program: after quick
    adds of 0.1 and 0.2 kcal and the undo of the second, the day holds
    the single entry of 0.1 kcal and a total of 0.1 + 0.2 - 0.2 =
    0.10000000000000003 kcal. *)
Lemma totals_drift_after_undo :
  ~ consistent (Example.run (A:=float) Example.add_add_undo).
Proof.
  intros Hc. pose proof (Hc "2024-03-15") as H1.
  vm_compute in H1. specialize (H1 _ eq_refl).
  apply (f_equal kcal) in H1. simpl in H1.
  revert H1. apply float_differ; vm_compute; reflexivity.
Qed.

(** ** The parser *)

Section TextFacts.

Lemma replace_comma_separator (a b : string) :
  Text.replace_comma (a +:+ "," +:+ b) = Text.replace_comma (a +:+ "." +:+ b).
Proof.
  unfold Text.replace_comma, Text.chars. f_equal.
  induction a as [|c a IH]; simpl; [reflexivity|].
  f_equal. exact IH.
Qed.

Lemma starts_with_refl (l : list ascii) : Text.starts_with l l = true.
Proof.
  induction l as [|c l IH]; simpl; [reflexivity|].
  rewrite Ascii.eqb_refl. exact IH.
Qed.

Lemma occurs_in_refl (l : list ascii) : Text.occurs_in l l = true.
Proof. destruct l; simpl; [reflexivity|]. rewrite Ascii.eqb_refl, starts_with_refl. reflexivity. Qed.

(** [s in s] *)
Lemma contains_refl (s : string) : Text.contains s s = true.
Proof. apply occurs_in_refl. Qed.

End TextFacts.

Lemma items_not_empty (text : string) : Forall (fun item => item <> "") (items text).
Proof.
  unfold items. apply Forall_forall. intros x Hx.
  apply list_elem_of_filter in Hx. destruct Hx as [Hx _]. exact Hx.
Qed.

Section ParserFacts.
Context {A : Type} `{Number A}.
Variable STANDARD_UNITS : list (string * A).
Variable get_food_info : string -> option (A * A * A * A).

Lemma fold_parse_step (l : list string) (acc : list (Declaration A)) :
  fold_left (parse_step STANDARD_UNITS get_food_info) l acc =
  acc ++ omap (parse_item STANDARD_UNITS get_food_info)
              (filter (fun item => item <> "") (Text.strip <$> l)).
Proof.
  revert acc. induction l as [|x l IH]; intros acc.
  - simpl. rewrite app_nil_r. reflexivity.
  - cbn [fold_left]. rewrite IH, fmap_cons, filter_cons. unfold parse_step.
    destruct (String.eqb_spec (Text.strip x) "") as [He|Hne].
    + rewrite decide_False by (intros Hn; exact (Hn He)). reflexivity.
    + rewrite decide_True by exact Hne. simpl.
      destruct (parse_item _ _ (Text.strip x)); simpl.
      * rewrite <- app_assoc. reflexivity.
      * reflexivity.
Qed.

(** The declarations are those of the items, in the order of the
    items, an item no pattern recognises giving none. *)
Lemma parse_food_entry_in_order (text : string) :
  parse_food_entry STANDARD_UNITS get_food_info text =
  omap (parse_item STANDARD_UNITS get_food_info) (items text).
Proof. unfold parse_food_entry. rewrite fold_parse_step. reflexivity. Qed.

End ParserFacts.

(** ** What the split leaves in an item *)

Section SplitFacts.

(** After its first character, [[,\n]+] always matches: it takes the
    separator characters that follow and ends there. *)
Lemma greedy_star_total (p : ascii -> bool) (fuel : nat) (s : cursor) (c : captures) :
  exists s' c',
    greedy_star (R:=cursor * captures) (Regex.run (Symbol p)) (fun s' c' => Some (s', c')) fuel s c
      = Some (s', c') /\
    List.length (ahead s') <= List.length (ahead s).
Proof.
  revert s c. induction fuel as [|fuel IH]; intros s c.
  - exists s, c. split; [reflexivity|lia].
  - simpl in *. destruct s as [before l]. simpl in *.
    destruct l as [|a l]; [exists (Cursor before []), c; split; [reflexivity|simpl; lia]|].
    destruct (p a);
      [|exists (Cursor before (a :: l)), c; split; [reflexivity|simpl; lia]].
    unfold if_shorter. simpl. rewrite (proj2 (Nat.ltb_lt _ _)) by lia.
    destruct (IH (Cursor (a :: before) l) c) as (s' & c' & Hs & Hlen).
    simpl in Hs, Hlen. rewrite Hs. exists s', c'. split; [reflexivity|lia].
Qed.

Lemma separator_matches_its_char (before l : list ascii) (a : ascii) :
  is_separator_char a = true ->
  exists s' c',
    match_at Patterns.separator (Cursor before (a :: l)) = Some (s', c') /\
    List.length (ahead s') <= List.length l.
Proof.
  intros Ha.
  destruct (greedy_star_total (fun c => Ascii.eqb c "," || Text.is_newline c)
              (List.length l) (Cursor (a :: before) l) []) as (s' & c' & Hs & Hlen).
  exists s', c'. split; [|exact Hlen].
  unfold match_at, Patterns.separator, Plus. simpl in Hs |- *.
  unfold is_separator_char in Ha. rewrite Ha, Hs. reflexivity.
Qed.

Lemma split_from_clean (before piece : list ascii) (skip : nat) (l : list ascii) :
  Forall (fun c => is_separator_char c = false) piece ->
  Forall (Forall (fun c => is_separator_char c = false))
         (split_from Patterns.separator before piece skip l).
Proof.
  revert before piece skip. induction l as [|a l IH]; intros before piece skip Hp.
  - destruct skip; simpl; repeat constructor; apply Forall_rev, Hp.
  - destruct skip as [|skip]; [|simpl; apply IH, Hp].
    cbn [split_from].
    destruct (is_separator_char a) eqn:Ha.
    + destruct (separator_matches_its_char before l a Ha) as (s' & c' & -> & Hlen).
      destruct (List.length (a :: l) - List.length (ahead s')) as [|n] eqn:En;
        [simpl in En; lia|].
      constructor; [apply Forall_rev, Hp|]. apply IH. constructor.
    + assert (Hpa : Forall (fun c => is_separator_char c = false) (a :: piece))
        by (constructor; assumption).
      destruct (match_at _ _) as [[s' c']|]; [|apply IH, Hpa].
      destruct (_ - _); [apply IH, Hpa|].
      constructor; [apply Forall_rev, Hp|]. apply IH. constructor.
Qed.

Lemma lstrip_chars_clean (P : ascii -> Prop) (l : list ascii) :
  Forall P l -> Forall P (Text.lstrip_chars l).
Proof.
  induction 1 as [|c l Hc Hl IH]; simpl; [constructor|].
  destruct (Text.is_space c); [exact IH|constructor; assumption].
Qed.

Lemma chars_text (l : list ascii) : Text.chars (Text.text l) = l.
Proof. apply list_ascii_of_string_of_list_ascii. Qed.

(** No item holds a comma or a line feed. *)
Lemma items_clean (text : string) :
  Forall (fun item => Forall (fun c => is_separator_char c = false) (Text.chars item))
         (items text).
Proof.
  unfold items, split_items, re_split.
  apply Forall_forall. intros item Hin.
  apply list_elem_of_filter in Hin as [_ Hin].
  apply list_elem_of_fmap in Hin as (piece & -> & Hin).
  apply list_elem_of_fmap in Hin as (l & -> & Hin).
  pose proof (split_from_clean [] [] 0
                (Text.chars (Text.strip (Text.lower text))) ltac:(constructor)) as Hall.
  rewrite Forall_forall in Hall. specialize (Hall l Hin).
  unfold Text.strip. rewrite !chars_text. unfold Text.strip_chars.
  apply Forall_rev, lstrip_chars_clean, Forall_rev, lstrip_chars_clean, Hall.
Qed.

End SplitFacts.

Section UnitFacts.
Context {A : Type} `{Number A}.
Variable STANDARD_UNITS : list (string * A).
Variable get_food_info : string -> option (A * A * A * A).

Lemma find_unit_first (before after : list (string * A)) (std_name : string) (w : A)
      (food_name : string) :
  Forall (fun p => names_overlap (fst p) food_name = false) before ->
  names_overlap std_name food_name = true ->
  find_unit (before ++ (std_name, w) :: after) food_name = Some w.
Proof.
  intros Hb Ho. induction Hb as [|[n g] before Hn Hb IH]; simpl.
  - unfold names_overlap in Ho. rewrite Ho. reflexivity.
  - unfold names_overlap in Hn. simpl in Hn. rewrite Hn. exact IH.
Qed.

Lemma find_unit_no_overlap (units : list (string * A)) (food_name : string) :
  Forall (fun p => names_overlap (fst p) food_name = false) units <->
  find_unit units food_name = None.
Proof.
  induction units as [|[n g] units IH]; simpl.
  - split; [reflexivity|constructor].
  - fold (names_overlap n food_name). split.
    + intros Hall. inversion Hall as [|? ? Hn Hrest]; subst. simpl in Hn.
      rewrite Hn. apply IH, Hrest.
    + destruct (names_overlap n food_name) eqn:E; [discriminate|].
      intros Hf. constructor; [exact E|apply IH, Hf].
Qed.

Lemma find_unit_In (units : list (string * A)) (food_name : string) (w : A) :
  find_unit units food_name = Some w -> exists n, In (n, w) units.
Proof.
  induction units as [|[n g] units IH]; simpl; [discriminate|].
  destruct (_ || _).
  - intros [= <-]. exists n. left. reflexivity.
  - intros Hf. destruct (IH Hf) as [n' Hin]. exists n'. right. exact Hin.
Qed.

(** A food name that is a key of the units is found by the pass over
    the units: it is inside itself. *)
Lemma unit_of_find_unit (units : list (string * A)) (food_name : string) (w : A) :
  unit_of units food_name = Some w -> exists w', find_unit units food_name = Some w'.
Proof.
  induction units as [|[n g] units IH]; simpl; [discriminate|].
  destruct (String.eqb_spec n food_name) as [->|Hne].
  - intros _. rewrite contains_refl. simpl. eauto.
  - intros Hu. destruct (_ || _); [eauto|apply IH, Hu].
Qed.

(** When the pass over the units finds nothing, the look-up of the
    food's own name finds nothing either. *)
Lemma fallback_grams_after_no_unit (quantity : A) (food_name : string) :
  find_unit STANDARD_UNITS food_name = None ->
  fallback_grams STANDARD_UNITS get_food_info quantity food_name = quantity.
Proof.
  intros Hf. unfold fallback_grams.
  destruct (get_food_info food_name); [|reflexivity].
  destruct (unit_of STANDARD_UNITS food_name) as [w|] eqn:E; [|reflexivity].
  destruct (unit_of_find_unit _ _ _ E) as [w' Hw']. congruence.
Qed.

(** The grams of an item without unit, case by case. *)
Lemma bare_count_cases (quantity : A) (food_name : string) :
  let grams := to_grams STANDARD_UNITS get_food_info quantity "" food_name in
  (num_leb quantity (num_of_Z 20) = false -> grams = quantity) /\
  (num_leb quantity (num_of_Z 20) = true ->
     (forall before std_name w after,
        STANDARD_UNITS = before ++ (std_name, w) :: after ->
        Forall (fun p => names_overlap (fst p) food_name = false) before ->
        names_overlap std_name food_name = true ->
        (num_truthy w = true -> grams = num_mul quantity w) /\
        (num_truthy w = false ->
           (forall info w', get_food_info food_name = Some info ->
                            unit_of STANDARD_UNITS food_name = Some w' ->
                            grams = num_mul quantity w') /\
           (get_food_info food_name = None \/ unit_of STANDARD_UNITS food_name = None ->
            grams = quantity))) /\
     (Forall (fun p => names_overlap (fst p) food_name = false) STANDARD_UNITS ->
        grams = quantity)).
Proof.
  intros grams. unfold grams, to_grams, count_or_grams. simpl.
  split; [intros ->; reflexivity|]. intros ->. split.
  - intros before std_name w after Hu Hb Ho.
    assert (Hfind : find_unit STANDARD_UNITS food_name = Some w)
      by (rewrite Hu; apply find_unit_first; assumption).
    rewrite Hfind. split.
    + intros Ht. rewrite Ht. reflexivity.
    + intros Ht. rewrite Ht. unfold fallback_grams. split.
      * intros info w' Hi Hw. rewrite Hi, Hw. reflexivity.
      * intros [Hi|Hw]; [rewrite Hi; reflexivity|].
        rewrite Hw. destruct (get_food_info food_name); reflexivity.
  - intros Hall. apply find_unit_no_overlap in Hall. rewrite Hall.
    apply fallback_grams_after_no_unit, Hall.
Qed.

Lemma count_or_grams_fallback_free (quantity : A) (unit food_name : string) :
  Forall (fun p => num_truthy (snd p) = true) STANDARD_UNITS ->
  count_or_grams STANDARD_UNITS get_food_info quantity unit food_name =
  count_or_grams_without_fallback STANDARD_UNITS quantity unit food_name.
Proof.
  intros Hpos. unfold count_or_grams, count_or_grams_without_fallback.
  destruct (_ && _); [|reflexivity].
  destruct (find_unit STANDARD_UNITS food_name) as [w|] eqn:E.
  - destruct (find_unit_In _ _ _ E) as [n Hin].
    rewrite Forall_forall in Hpos. specialize (Hpos (n, w)). simpl in Hpos.
    rewrite Hpos; [reflexivity|]. apply list_elem_of_In, Hin.
  - apply fallback_grams_after_no_unit, E.
Qed.

Lemma fold_parse_step_fallback_free (l : list string) (acc : list (Declaration A)) :
  Forall (fun p => num_truthy (snd p) = true) STANDARD_UNITS ->
  fold_left (parse_step_without_fallback STANDARD_UNITS get_food_info) l acc =
  fold_left (parse_step STANDARD_UNITS get_food_info) l acc.
Proof.
  intros Hpos. revert acc. induction l as [|x l IH]; intros acc; [reflexivity|].
  cbn [fold_left]. rewrite IH. f_equal.
  unfold parse_step_without_fallback, parse_step,
    parse_item_without_fallback, parse_item.
  destruct (String.eqb _ _); [reflexivity|].
  destruct (match_item _) as [[[q u] n]|]; [|reflexivity].
  unfold to_grams_without_fallback, to_grams.
  rewrite (count_or_grams_fallback_free q u n Hpos). reflexivity.
Qed.

(** C10, as it holds: when every unit has a weight that is not zero,
    a food name that is a key of the units is found by the pass over
    the units with a weight that [if unit_grams:] takes, the quantity
    leaves lines 168-171 as it enters them, and the parser without
    these lines returns, on every text, what the parser returns. *)
Theorem fallback_branch_unreachable :
  Forall (fun p => num_truthy (snd p) = true) STANDARD_UNITS ->
  (forall food_name w,
     unit_of STANDARD_UNITS food_name = Some w ->
     exists w', find_unit STANDARD_UNITS food_name = Some w' /\ num_truthy w' = true) /\
  (forall text,
     parse_food_entry_without_fallback STANDARD_UNITS get_food_info text =
     parse_food_entry STANDARD_UNITS get_food_info text).
Proof.
  intros Hpos. split.
  - intros food_name w Hu. destruct (unit_of_find_unit _ _ _ Hu) as [w' Hw'].
    exists w'. split; [exact Hw'|].
    destruct (find_unit_In _ _ _ Hw') as [n Hin].
    rewrite Forall_forall in Hpos. apply (Hpos (n, w')), list_elem_of_In, Hin.
  - intros text. apply fold_parse_step_fallback_free, Hpos.
Qed.

End UnitFacts.


(** *** The value of a quantity *)

Section QuantityFacts.
Context {A : Type} `{Number A}.

Lemma leading_digits_all (f : list ascii) :
  Forall (fun d => Text.is_digit d = true) f -> Text.leading_digits f = f.
Proof.
  induction 1 as [|d f Hd Hf IH]; simpl; [reflexivity|].
  rewrite Hd, IH. reflexivity.
Qed.

Lemma leading_digits_stop (i rest : list ascii) (c : ascii) :
  Forall (fun d => Text.is_digit d = true) i ->
  Text.is_digit c = false ->
  Text.leading_digits (i ++ c :: rest) = i.
Proof.
  intros Hi Hc. induction Hi as [|d i Hd Hi IH]; simpl.
  - rewrite Hc. reflexivity.
  - rewrite Hd, IH. reflexivity.
Qed.

Lemma replace_comma_digits (i : list ascii) :
  Forall (fun d => Text.is_digit d = true) i ->
  map (fun c => if Ascii.eqb c "," then "."%char else c) i = i.
Proof.
  induction 1 as [|d i Hd Hi IH]; simpl; [reflexivity|].
  rewrite IH. destruct (Ascii.eqb_spec d ",") as [->|_]; [discriminate Hd|reflexivity].
Qed.

(** [float] of digits, a point and digits. *)
Lemma py_float_decimal (i f : list ascii) :
  Forall (fun d => Text.is_digit d = true) i ->
  Forall (fun d => Text.is_digit d = true) f ->
  py_float (A:=A) (Text.text (i ++ "."%char :: f)) =
  num_of_decimal (digits_value (i ++ f)) (List.length f).
Proof.
  intros Hi Hf. unfold py_float. rewrite chars_text.
  rewrite (leading_digits_stop i f "." Hi eq_refl).
  rewrite drop_app_length. rewrite (leading_digits_all f Hf). reflexivity.
Qed.

(** A quantity written with a comma or with a point is the number its
    digits read, divided by ten for each digit after the separator. *)
Lemma quantity_of_decimal (i f : list ascii) (sep : ascii) :
  Forall (fun d => Text.is_digit d = true) i ->
  Forall (fun d => Text.is_digit d = true) f ->
  sep = ","%char \/ sep = "."%char ->
  quantity_of (A:=A) (Text.text (i ++ sep :: f)) =
  num_of_decimal (digits_value (i ++ f)) (List.length f).
Proof.
  intros Hi Hf Hsep. unfold quantity_of, Text.replace_comma.
  rewrite chars_text, map_app, map_cons.
  rewrite (replace_comma_digits i Hi), (replace_comma_digits f Hf).
  destruct Hsep as [-> | ->]; cbn [Ascii.eqb Bool.eqb]; apply py_float_decimal; assumption.
Qed.

End QuantityFacts.

(** *** Examples in the arithmetic of the program *)

(** Evaluate the split of a text and the match of its single item. *)
Ltac parse_one_item the_items the_match :=
  rewrite parse_food_entry_in_order;
  match goal with
  | |- context [items ?t] =>
      replace (items t) with the_items by (vm_compute; reflexivity)
  end;
  cbn [omap list_omap]; unfold parse_item;
  match goal with
  | |- context [match_item ?i] =>
      replace (match_item (A:=float) i) with the_match by (vm_compute; reflexivity)
  end.

Lemma two_eggs (info : string -> option (float * float * float * float)) :
  name_and_grams <$> parse_food_entry Example.UNITS info "2 eggs" = [("eggs", 120%float)].
Proof.
  parse_one_item ["2 eggs"] (Some (2%float, "", "eggs")).
  unfold declare. destruct (info "eggs") as [[[[k p] l] g]|]; vm_compute; reflexivity.
Qed.

Lemma litre_and_a_half (units : list (string * float))
      (info : string -> option (float * float * float * float)) :
  name_and_grams <$> parse_food_entry units info "1.5l lait" = [("lait", 1500%float)].
Proof.
  parse_one_item ["1.5l lait"] (Some (1.5%float, "l", "lait")).
  unfold declare. destruct (info "lait") as [[[[k p] l] g]|]; vm_compute; reflexivity.
Qed.

(** The comma of a quantity is a separator of items first: of
    "1,5l lait" the parser sees the items "1" and "5l lait". *)
Lemma comma_is_a_separator (units : list (string * float))
      (info : string -> option (float * float * float * float)) :
  items "1,5l lait" = ["1"; "5l lait"] /\
  name_and_grams <$> parse_food_entry units info "1,5l lait" = [("lait", 5000%float)].
Proof.
  split; [vm_compute; reflexivity|].
  rewrite parse_food_entry_in_order.
  replace (items "1,5l lait") with ["1"; "5l lait"] by (vm_compute; reflexivity).
  cbn [omap list_omap]. unfold parse_item.
  replace (match_item (A:=float) "1") with (@None (float * string * string))
    by (vm_compute; reflexivity).
  replace (match_item (A:=float) "5l lait") with (Some (5%float, "l", "lait"))
    by (vm_compute; reflexivity).
  unfold declare. destruct (info "lait") as [[[[k p] l] g]|]; vm_compute; reflexivity.
Qed.

(** C4, as it holds: the conversion of a quantity gives the same
    number whether its separator is a comma or a point, namely the
    number its digits read divided by ten for each digit after the
    separator; the pattern takes both ("1,5l lait" and "1.5l lait" as
    items give the quantity 1.5, the unit l and the food lait); and the
    message "1.5l lait" is one declaration of 1500 grams. *)
Theorem decimal_separator :
  (forall (A : Type) (HA : Number A) (a b : string),
     quantity_of (A:=A) (a +:+ "," +:+ b) = quantity_of (a +:+ "." +:+ b)) /\
  (forall (A : Type) (HA : Number A) (i f : list ascii) (sep : ascii),
     Forall (fun d => Text.is_digit d = true) i ->
     Forall (fun d => Text.is_digit d = true) f ->
     sep = ","%char \/ sep = "."%char ->
     quantity_of (A:=A) (Text.text (i ++ sep :: f)) =
     num_of_decimal (digits_value (i ++ f)) (List.length f)) /\
  match_item (A:=float) "1,5l lait" = Some (1.5%float, "l", "lait") /\
  match_item (A:=float) "1.5l lait" = Some (1.5%float, "l", "lait") /\
  (forall units info,
     name_and_grams <$> parse_food_entry (A:=float) units info "1.5l lait"
     = [("lait", 1500%float)]).
Proof.
  split; [|split; [|split; [|split]]].
  - intros A HA a b. unfold quantity_of. rewrite replace_comma_separator. reflexivity.
  - intros A HA i f sep. apply quantity_of_decimal.
  - vm_compute. reflexivity.
  - vm_compute. reflexivity.
  - exact litre_and_a_half.
Qed.

(** C4 in use: "1,5" is 15 / 10. *)
Lemma decimal_separator_witness :
  quantity_of (A:=float) "1,5" = 1.5%float.
Proof.
  exact (proj1 (proj2 decimal_separator) float _ (Text.chars "1") (Text.chars "5") ","%char
               ltac:(repeat constructor) ltac:(repeat constructor)
               ltac:(left; reflexivity)).
Defined.

(** C4 as stated fails: neither "1,5l" nor "1.5l" is a declaration of
    1500 grams.  The comma cuts the first into the items "1" and "5l";
    and in "5l" as in "1.5l" nothing follows the letter l, which is
    then the food name, not the unit. *)
Lemma litre_without_food :
  parse_food_entry (A:=float) Example.UNITS (Example.lookup_exact Example.FOODS) "1,5l"
    = [("l", 5%float, None)] /\
  parse_food_entry (A:=float) Example.UNITS (Example.lookup_exact Example.FOODS) "1.5l"
    = [("l", 1.5%float, None)].
Proof. split; vm_compute; reflexivity. Qed.

(** C5, as it holds: the separators are the comma, the line feed and
    the word "et"; the items are the pieces stripped, none of them
    empty, none with a comma or a line feed left in it; and the
    declarations are those of the items, in their order. *)
Theorem items_in_order :
  items "200g rice, 2 eggs et 1 yogurt" = ["200g rice"; "2 eggs"; "1 yogurt"] /\
  items ("200g rice" +:+ newline +:+ " ,, 2 eggs et" +:+ newline) = ["200g rice"; "2 eggs"] /\
  items "omelette 2, 1 poulet" = ["omelette 2"; "1 poulet"] /\
  (forall text, Forall (fun item => item <> "") (items text)) /\
  (forall text,
     Forall (fun item => Forall (fun c => is_separator_char c = false) (Text.chars item))
            (items text)) /\
  (forall (A : Type) (HA : Number A) units info text,
     parse_food_entry (A:=A) units info text = omap (parse_item units info) (items text)).
Proof.
  split; [vm_compute; reflexivity|].
  split; [vm_compute; reflexivity|].
  split; [vm_compute; reflexivity|].
  split; [exact items_not_empty|].
  split; [exact items_clean|].
  intros A HA units info text. apply parse_food_entry_in_order.
Qed.

(** C5 as stated fails: the word "and" does not separate items. *)
Lemma and_is_not_a_separator :
  items "200g rice, 2 eggs and 1 yogurt" = ["200g rice"; "2 eggs and 1 yogurt"] /\
  name_and_grams <$>
    parse_food_entry (A:=float) Example.UNITS (Example.lookup_exact Example.FOODS)
                     "200g rice, 2 eggs and 1 yogurt"
  = [("rice", 200%float); ("eggs and 1 yogurt", 120%float)].
Proof. split; vm_compute; reflexivity. Qed.

(** C6: an item without unit.  A quantity above 20 is the grams.  A
    quantity of at most 20 is a number of units: of the first unit of
    the table whose name is inside the food name or contains it, when
    that unit has a weight (not zero), grams = quantity x weight;
    when its weight is zero, of the unit of the food's own name if the
    catalog knows the food and the table has that name, and else the
    quantity is the grams; and when no unit name is inside the food
    name or contains it, the quantity is the grams.  With eggs of
    60 g, "2 eggs" is 120 grams. *)
Theorem bare_count_grams :
  (forall (A : Type) (HA : Number A) (STANDARD_UNITS : list (string * A))
          (get_food_info : string -> option (A * A * A * A))
          (quantity : A) (food_name : string),
     let grams := to_grams STANDARD_UNITS get_food_info quantity "" food_name in
     (num_leb quantity (num_of_Z 20) = false -> grams = quantity) /\
     (num_leb quantity (num_of_Z 20) = true ->
        (forall before std_name w after,
           STANDARD_UNITS = before ++ (std_name, w) :: after ->
           Forall (fun p => names_overlap (fst p) food_name = false) before ->
           names_overlap std_name food_name = true ->
           (num_truthy w = true -> grams = num_mul quantity w) /\
           (num_truthy w = false ->
              (forall info w', get_food_info food_name = Some info ->
                               unit_of STANDARD_UNITS food_name = Some w' ->
                               grams = num_mul quantity w') /\
              (get_food_info food_name = None \/ unit_of STANDARD_UNITS food_name = None ->
               grams = quantity))) /\
        (Forall (fun p => names_overlap (fst p) food_name = false) STANDARD_UNITS ->
           grams = quantity))) /\
  (forall info,
     name_and_grams <$> parse_food_entry (A:=float) Example.UNITS info "2 eggs"
     = [("eggs", 120%float)]).
Proof.
  split.
  - intros A HA STANDARD_UNITS get_food_info quantity food_name.
    apply bare_count_cases.
  - exact two_eggs.
Qed.

(** C6 in use: two eggs, by the first case of a quantity of at most
    20; and 25 of them are 25 grams. *)
Lemma bare_count_grams_witness :
  to_grams (A:=float) Example.UNITS (Example.lookup_exact Example.FOODS) 2%float "" "eggs"
    = (2 * 60)%float /\
  to_grams (A:=float) Example.UNITS (Example.lookup_exact Example.FOODS) 25%float "" "eggs"
    = 25%float.
Proof.
  pose proof (proj1 bare_count_grams float _ Example.UNITS
                    (Example.lookup_exact Example.FOODS)) as Hcases.
  split.
  - destruct (Hcases 2%float "eggs") as [_ Hsmall].
    destruct (Hsmall ltac:(vm_compute; reflexivity)) as [Hfirst _].
    destruct (Hfirst [] "egg" 60%float [] ltac:(vm_compute; reflexivity)
                     ltac:(constructor) ltac:(vm_compute; reflexivity)) as [Hw _].
    exact (Hw ltac:(vm_compute; reflexivity)).
  - destruct (Hcases 25%float "eggs") as [Hlarge _].
    exact (Hlarge ltac:(vm_compute; reflexivity)).
Defined.

(** C10 in use: the table of the examples has no unit of weight zero. *)
Lemma fallback_branch_unreachable_witness :
  parse_food_entry_without_fallback (A:=float) Example.UNITS
    (Example.lookup_exact Example.FOODS) "200g rice, 3 egg" =
  parse_food_entry Example.UNITS (Example.lookup_exact Example.FOODS) "200g rice, 3 egg".
Proof.
  refine (proj2 (fallback_branch_unreachable Example.UNITS
                   (Example.lookup_exact Example.FOODS) _) _).
  repeat constructor.
Defined.

(** C10 as stated fails on a table with a unit of weight zero: found
    first by the pass over the units, it is a weight that
    [if unit_grams:] does not take, so the parser goes to lines
    168-171, which find the unit of the food's own name: 2 "oeuf" are
    120 g, and 2 g for the parser without these lines. *)
Lemma zero_weight_reaches_the_fallback :
  let units := [("oeufs bio", 0%float); ("oeuf", 60%float)] in
  let info := fun name : string =>
                if String.eqb name "oeuf"
                then Some (155%float, 13%float, 11%float, 1%float) else None in
  name_and_grams <$> parse_food_entry units info "2 oeuf" = [("oeuf", 120%float)] /\
  name_and_grams <$> parse_food_entry_without_fallback units info "2 oeuf"
    = [("oeuf", 2%float)] /\
  unit_of units "oeuf" = Some 60%float /\
  find_unit units "oeuf" = Some 0%float /\
  num_truthy 0%float = false /\
  parse_food_entry_without_fallback units info "2 oeuf"
  <> parse_food_entry units info "2 oeuf".
Proof.
  cbv zeta. repeat split; try (vm_compute; reflexivity).
  intros Heq.
  apply (f_equal (fun l => match l with
                           | [d] => snd (name_and_grams d)
                           | _ => 0%float
                           end)) in Heq.
  vm_compute in Heq. revert Heq. apply float_differ; vm_compute; reflexivity.
Qed.

(** ** Foods the catalog does not know *)

Section Unresolved.
Context {A : Type} `{Number A}.
Variable STANDARD_UNITS : list (string * A).
Variable get_food_info : gmap string (A * A * A * A) -> string -> option (A * A * A * A).

Lemma parse_item_unresolved (info : string -> option (A * A * A * A))
      (item : string) (quantity : A) (unit food_name : string) :
  match_item item = Some (quantity, unit, food_name) ->
  info food_name = None ->
  parse_item STANDARD_UNITS info item =
  Some (food_name, to_grams STANDARD_UNITS info quantity unit food_name, None).
Proof.
  intros Hm Hi. unfold parse_item, declare. rewrite Hm, Hi. reflexivity.
Qed.

Lemma unresolved_not_recorded (clock : Clock) (d : Declaration A) :
  entry_of clock d = None ->
  forall st rec nf,
    record_declaration clock (st, rec, nf) d = (st, rec, nf ++ [fst (fst d)]).
Proof.
  destruct d as [[name grams] [m|]]; simpl; [discriminate|]. reflexivity.
Qed.

Lemma message_records_resolved_only (text : string) (clock : Clock) (st : State A) :
  let parsed := parse_food_entry STANDARD_UNITS (get_food_info (FOODS_DATABASE st)) text in
  let after := snd (handle_food_message STANDARD_UNITS get_food_info text clock st) in
  Text.starts_with ["/"%char] (Text.chars text) = false ->
  parsed <> [] ->
  fst (handle_food_message STANDARD_UNITS get_food_info text clock st)
    = Recorded (resolved_entries clock parsed) (unresolved_names parsed) /\
  day_of (daily_data after) (today clock) =
    mkDay (entries (day_of (daily_data st) (today clock)) ++ resolved_entries clock parsed)
          (fold_left add_macros (macros <$> resolved_entries clock parsed)
                     (totals (day_of (daily_data st) (today clock)))).
Proof.
  intros parsed after Hcmd Hne. unfold after.
  rewrite (handle_food_message_parsed STANDARD_UNITS get_food_info text clock st Hcmd Hne).
  fold parsed. split; [reflexivity|]. simpl.
  rewrite record_entries_day. simpl. rewrite day_of_init_day. reflexivity.
Qed.

End Unresolved.

(** C7: an item whose food the catalog does not know is declared with
    its name, its grams and no macros; the loop of the message handler
    passes over such a declaration without touching the state or the
    list of recorded entries, and notes the name; after a message, the
    day has gained the entries of the resolved declarations and no
    other, and its totals their macros.  "200g unicornmeat" is declared
    with 200 grams and no macros, and next to "200g rice" only the rice
    is recorded. *)
Theorem unresolved_food_is_not_recorded :
  (forall (A : Type) (HA : Number A) units (info : string -> option (A * A * A * A))
          item quantity unit food_name,
     match_item item = Some (quantity, unit, food_name) ->
     info food_name = None ->
     parse_item units info item = Some (food_name, to_grams units info quantity unit food_name, None)) /\
  (forall (A : Type) (HA : Number A) clock (st : State A) rec nf food_name grams,
     record_declaration clock (st, rec, nf) (food_name, grams, None)
     = (st, rec, nf ++ [food_name])) /\
  (forall (A : Type) (HA : Number A) units get_food_info text clock (st : State A),
     let parsed := parse_food_entry units (get_food_info (FOODS_DATABASE st)) text in
     let after := snd (handle_food_message units get_food_info text clock st) in
     Text.starts_with ["/"%char] (Text.chars text) = false ->
     parsed <> [] ->
     fst (handle_food_message units get_food_info text clock st)
       = Recorded (resolved_entries clock parsed) (unresolved_names parsed) /\
     day_of (daily_data after) (today clock) =
       mkDay (entries (day_of (daily_data st) (today clock)) ++ resolved_entries clock parsed)
             (fold_left add_macros (macros <$> resolved_entries clock parsed)
                        (totals (day_of (daily_data st) (today clock))))) /\
  parse_food_entry (A:=float) Example.UNITS (Example.lookup_exact Example.FOODS)
                   "200g unicornmeat" = [("unicornmeat", 200%float, None)] /\
  (let rice := mkEntry "rice" 200%float
                 (mkMacros 260%float (num_mul (num_of_decimal 27 1) 2%float)
                           (num_mul (num_of_decimal 3 1) 2%float) 56%float) "12:30" in
   handle_food_message (A:=float) Example.UNITS Example.lookup_exact
                       "200g unicornmeat, 200g rice" Example.clock (initial Example.FOODS)
   = (Recorded [rice] ["unicornmeat"],
      mkState {[ "2024-03-15" := mkDay [rice] (add_macros zero_macros (macros rice)) ]}
              (Some rice) Example.FOODS)).
Proof.
  split; [|split; [|split; [|split]]].
  - intros A HA units info item quantity unit food_name. apply parse_item_unresolved.
  - reflexivity.
  - intros A HA units get_food_info text clock st. apply message_records_resolved_only.
  - vm_compute. reflexivity.
  - vm_compute. reflexivity.
Qed.

(** C7 in use: the message "200g unicornmeat" on a fresh day. *)
Lemma unresolved_food_is_not_recorded_witness :
  let result := handle_food_message (A:=float) Example.UNITS Example.lookup_exact
                  "200g unicornmeat" Example.clock (initial Example.FOODS) in
  fst result = Recorded [] ["unicornmeat"] /\
  day_of (daily_data (snd result)) "2024-03-15" = empty_day.
Proof.
  exact (proj1 (proj2 (proj2 unresolved_food_is_not_recorded)) float _
               Example.UNITS Example.lookup_exact "200g unicornmeat" Example.clock
               (initial Example.FOODS)
               ltac:(vm_compute; reflexivity)
               ltac:(vm_compute; discriminate)).
Defined.

(** ** Quick adds *)

Section QuickAdd.
Context {A : Type} `{Number A}.
Variable float_of_text : string -> option A.
Variable format_0f : A -> string.

Lemma add_food_quick (args : list string) (clock : Clock) (st : State A)
      (grams : A) (m : Macros A) :
  args <> [] ->
  Text.has_char "|" (String.concat " " args) = false ->
  quick_add_fields (String.concat " " args) = Some (grams, m) ->
  let result := add_food float_of_text format_0f args clock st in
  let before := day_of (daily_data st) (today clock) in
  exists label,
    fst result = QuickAdded (mkEntry label grams m (hhmm clock)) /\
    day_of (daily_data (snd result)) (today clock) =
      mkDay (entries before ++ [mkEntry label grams m (hhmm clock)])
            (add_macros (totals before) m).
Proof.
  intros Hargs Hbar Hq result before. unfold result, add_food.
  destruct args as [|a args]; [congruence|].
  rewrite Hbar, Hq. eexists. split; [reflexivity|].
  cbn [snd]. rewrite day_of_record_entry. simpl. rewrite day_of_init_day. reflexivity.
Qed.

Lemma quick_add_fields_with_grams (full_args : string) (c : captures) :
  re_match Patterns.quick_add (Text.lower full_args) = Some c ->
  quick_add_fields full_args =
  Some (quantity_of (default "" (group c 1)),
        mkMacros (quantity_of (default "" (group c 3)))
                 (quantity_of (default "" (group c 4)))
                 (quantity_of (default "" (group c 5)))
                 (quantity_of (default "" (group c 6)))).
Proof. intros Hm. unfold quick_add_fields. rewrite Hm. reflexivity. Qed.

Lemma quick_add_fields_without_grams (full_args : string) (c : captures) :
  re_match Patterns.quick_add (Text.lower full_args) = None ->
  re_match Patterns.quick_add_no_qty (Text.lower full_args) = Some c ->
  quick_add_fields full_args =
  Some (num_of_Z 100,
        mkMacros (quantity_of (default "" (group c 1)))
                 (quantity_of (default "" (group c 2)))
                 (quantity_of (default "" (group c 3)))
                 (quantity_of (default "" (group c 4)))).
Proof. intros Hn Hm. unfold quick_add_fields. rewrite Hn, Hm. reflexivity. Qed.

End QuickAdd.

(** C9: a quick add whose text matches the six-field pattern records an
    entry whose quantity is the number of the first field and whose
    macros are the numbers of the kcal, p, l and g fields as written,
    and adds these same numbers to the totals; a text that matches the
    four-field pattern only records the quantity 100 with the four
    numbers as written.  "30g 150kcal 10p 5l 8g" records 30 g with
    (150, 10, 5, 8), not 30/100 of them, and "150kcal 10p 5l 8g"
    records 100 g with (150, 10, 5, 8). *)
Theorem quick_add_macros_are_literal :
  (forall (A : Type) (HA : Number A) float_of_text format_0f args clock (st : State A) c,
     args <> [] ->
     Text.has_char "|" (String.concat " " args) = false ->
     re_match Patterns.quick_add (Text.lower (String.concat " " args)) = Some c ->
     let m := mkMacros (quantity_of (default "" (group c 3)))
                       (quantity_of (default "" (group c 4)))
                       (quantity_of (default "" (group c 5)))
                       (quantity_of (default "" (group c 6))) in
     let grams := quantity_of (default "" (group c 1)) in
     let result := add_food float_of_text format_0f args clock st in
     let before := day_of (daily_data st) (today clock) in
     exists label,
       fst result = QuickAdded (mkEntry label grams m (hhmm clock)) /\
       day_of (daily_data (snd result)) (today clock) =
         mkDay (entries before ++ [mkEntry label grams m (hhmm clock)])
               (add_macros (totals before) m)) /\
  (forall (A : Type) (HA : Number A) float_of_text format_0f args clock (st : State A) c,
     args <> [] ->
     Text.has_char "|" (String.concat " " args) = false ->
     re_match Patterns.quick_add (Text.lower (String.concat " " args)) = None ->
     re_match Patterns.quick_add_no_qty (Text.lower (String.concat " " args)) = Some c ->
     let m := mkMacros (quantity_of (default "" (group c 1)))
                       (quantity_of (default "" (group c 2)))
                       (quantity_of (default "" (group c 3)))
                       (quantity_of (default "" (group c 4))) in
     let result := add_food float_of_text format_0f args clock st in
     let before := day_of (daily_data st) (today clock) in
     exists label,
       fst result = QuickAdded (mkEntry label (num_of_Z 100) m (hhmm clock)) /\
       day_of (daily_data (snd result)) (today clock) =
         mkDay (entries before ++ [mkEntry label (num_of_Z 100) m (hhmm clock)])
               (add_macros (totals before) m)) /\
  quick_add_fields (A:=float) "30g 150kcal 10p 5l 8g"
    = Some (30%float, mkMacros 150%float 10%float 5%float 8%float) /\
  quick_add_fields (A:=float) "150kcal 10p 5l 8g"
    = Some (100%float, mkMacros 150%float 10%float 5%float 8%float).
Proof.
  split; [|split; [|split]].
  - intros A HA float_of_text format_0f args clock st c Hargs Hbar Hm.
    apply add_food_quick; [exact Hargs|exact Hbar|].
    apply quick_add_fields_with_grams, Hm.
  - intros A HA float_of_text format_0f args clock st c Hargs Hbar Hn Hm.
    apply add_food_quick; [exact Hargs|exact Hbar|].
    apply quick_add_fields_without_grams; assumption.
  - vm_compute. reflexivity.
  - vm_compute. reflexivity.
Qed.

(** C9 in use: "/add 30g 150kcal 10p 5l 8g" on a fresh day. *)
Lemma quick_add_macros_are_literal_witness :
  exists label,
    fst (add_food (A:=float) Example.no_float Example.no_label
                  ["30g"; "150kcal"; "10p"; "5l"; "8g"] Example.clock (initial Example.FOODS))
    = QuickAdded (mkEntry label 30%float (mkMacros 150%float 10%float 5%float 8%float) "12:30") /\
    day_of (daily_data (snd (add_food (A:=float) Example.no_float Example.no_label
                  ["30g"; "150kcal"; "10p"; "5l"; "8g"] Example.clock (initial Example.FOODS))))
           "2024-03-15"
    = mkDay [mkEntry label 30%float (mkMacros 150%float 10%float 5%float 8%float) "12:30"]
            (add_macros zero_macros (mkMacros 150%float 10%float 5%float 8%float)).
Proof.
  exact (proj1 quick_add_macros_are_literal float _ Example.no_float Example.no_label
               ["30g"; "150kcal"; "10p"; "5l"; "8g"] Example.clock (initial Example.FOODS)
               [(6, Text.chars "8"); (5, Text.chars "5"); (4, Text.chars "10");
                (3, Text.chars "150"); (2, Text.chars "g"); (1, Text.chars "30")]
               ltac:(discriminate) ltac:(vm_compute; reflexivity)
               ltac:(vm_compute; reflexivity)).
Defined.

(** ** Retention *)

Section RetentionFacts.
Context {A : Type}.

Lemma expired_after_midnight (now : Calendar.datetime) (k : string) :
  (0 < Calendar.micros now)%Z ->
  expired now k =
  match Calendar.strptime k with
  | Some d => strictly_older_than_window (Calendar.day now) 3 d
  | None => false
  end.
Proof.
  intros Hpos. unfold expired, strictly_older_than_window, Calendar.before.
  destruct (Calendar.strptime k) as [d|]; [|reflexivity]. simpl.
  destruct (d <? Calendar.day now - 3)%Z eqn:E.
  - apply Z.ltb_lt in E. apply orb_true_iff.
    destruct (Z.eq_dec d (Calendar.day now - 4)%Z) as [->|Hne].
    + right. rewrite Z.eqb_refl. simpl. apply Z.ltb_lt, Hpos.
    + left. apply Z.ltb_lt. lia.
  - apply Z.ltb_ge in E. apply orb_false_iff. split.
    + apply Z.ltb_ge. lia.
    + apply andb_false_iff. left. apply Z.eqb_neq. lia.
Qed.

Lemma midnight_reset_window (now : Calendar.datetime) (st : State A) (k : string) :
  (0 < Calendar.micros now)%Z ->
  daily_data (midnight_reset now st) !! k =
  match Calendar.strptime k with
  | Some d => if strictly_older_than_window (Calendar.day now) 3 d
              then None else daily_data st !! k
  | None => daily_data st !! k
  end.
Proof.
  intros Hpos. rewrite midnight_reset_lookup, (expired_after_midnight now k Hpos).
  destruct (Calendar.strptime k); reflexivity.
Qed.

End RetentionFacts.

(** C8, as it holds: [midnight_reset] has no parameter for the
    retention; run after midnight (the scheduler starts it at 00:01),
    it deletes the days whose key is a date strictly older than the
    date of the run less 3 days, and keeps every other key with what it
    holds.  Run on 2024-03-15 at 00:01, it deletes 2024-03-10 and keeps
    2024-03-13. *)
Theorem midnight_reset_keeps_three_days :
  (forall (A : Type) (now : Calendar.datetime) (st : State A) (k : string),
     (0 < Calendar.micros now)%Z ->
     daily_data (midnight_reset now st) !! k =
     match Calendar.strptime k with
     | Some d => if strictly_older_than_window (Calendar.day now) 3 d
                 then None else daily_data st !! k
     | None => daily_data st !! k
     end) /\
  (let now := Calendar.mkDatetime (Calendar.ordinal 2024 3 15) 60000000 in
   let st := Example.run (A:=float)
               [Status (mkClock "2024-03-10" "09:00"); Status (mkClock "2024-03-13" "09:00")] in
   Calendar.strptime "2024-03-10" = Some (Calendar.day now - 5)%Z /\
   Calendar.strptime "2024-03-13" = Some (Calendar.day now - 2)%Z /\
   daily_data st !! "2024-03-10" = Some empty_day /\
   daily_data (midnight_reset now st) !! "2024-03-10" = None /\
   daily_data (midnight_reset now st) !! "2024-03-13" = Some empty_day).
Proof.
  split.
  - intros A now st k. apply midnight_reset_window.
  - cbv zeta. repeat split; vm_compute; reflexivity.
Qed.

(** C8 in use: the run of 2024-03-15 at 00:01 on a ledger that holds
    2024-03-11, four days old. *)
Lemma midnight_reset_keeps_three_days_witness :
  daily_data (midnight_reset (Calendar.mkDatetime (Calendar.ordinal 2024 3 15) 60000000)
                (Example.run (A:=float) [Status (mkClock "2024-03-11" "09:00")]))
    !! "2024-03-11" = None.
Proof.
  exact (proj1 midnight_reset_keeps_three_days float
               (Calendar.mkDatetime (Calendar.ordinal 2024 3 15) 60000000)
               (Example.run (A:=float) [Status (mkClock "2024-03-11" "09:00")])
               "2024-03-11" ltac:(reflexivity)).
Defined.

(** C8 as stated fails for a retention other than 3 days: with
    [retain_days] = 1 the day dated 2 days before the run is strictly
    older than the window, and [midnight_reset] keeps it.  And the
    retention of 3 days rests on the time of the run: at 00:00:00
    sharp the day dated 4 days before, strictly older than the window
    of 3 days, would be kept. *)
Lemma retention_is_not_a_parameter :
  let now := Calendar.mkDatetime (Calendar.ordinal 2024 3 15) 60000000 in
  let midnight := Calendar.mkDatetime (Calendar.ordinal 2024 3 15) 0 in
  let st := Example.run (A:=float)
              [Status (mkClock "2024-03-11" "09:00"); Status (mkClock "2024-03-13" "09:00")] in
  (Calendar.strptime "2024-03-13" = Some (Calendar.day now - 2)%Z /\
   strictly_older_than_window (Calendar.day now) 1 (Calendar.day now - 2) = true /\
   daily_data (midnight_reset now st) !! "2024-03-13" = Some empty_day) /\
  (Calendar.strptime "2024-03-11" = Some (Calendar.day midnight - 4)%Z /\
   strictly_older_than_window (Calendar.day midnight) 3 (Calendar.day midnight - 4) = true /\
   daily_data (midnight_reset midnight st) !! "2024-03-11" = Some empty_day).
Proof. cbv zeta. repeat split; vm_compute; reflexivity. Qed.


(** * Further properties of the program *)

(** ** [init_day] *)

(** X1: [init_day] creates a day once: called again it changes
    nothing, it never replaces the record of a day that exists, the day
    it creates has no entries and totals of zero, and the other days
    are left alone. *)
Theorem init_day_creates_once :
  forall (A : Type) (HA : Number A) (data : gmap string (Day A)) (k : string),
    init_day k (init_day k data) = init_day k data /\
    (forall d, data !! k = Some d -> init_day k data = data) /\
    (data !! k = None -> init_day k data !! k = Some (mkDay [] zero_macros)) /\
    (forall k', k' <> k -> init_day k data !! k' = data !! k').
Proof.
  intros A HA data k. split; [apply init_day_idempotent|]. split; [|split].
  - intros d Hd. apply init_day_present. eauto.
  - intros Hn. unfold init_day. rewrite Hn. apply lookup_insert_eq.
  - intros k' Hne. unfold init_day. destruct (data !! k); [reflexivity|].
    apply lookup_insert_ne. intros Heq. exact (Hne (eq_sym Heq)).
Qed.

(** X1 in use: a day with an entry keeps it. *)
Lemma init_day_creates_once_witness :
  let data := daily_data (Example.run (A:=float) Example.day_of_meals) in
  init_day "2024-03-15" data = data.
Proof.
  intros data.
  refine (proj1 (proj2 (init_day_creates_once float _ data "2024-03-15"))
                (default empty_day (data !! "2024-03-15")) _).
  vm_compute. reflexivity.
Defined.

(** ** The nightly clean-up *)

Section ResetFacts.
Context {A : Type}.

Lemma state_eq (st st' : State A) :
  daily_data st = daily_data st' -> last_entry st = last_entry st' ->
  FOODS_DATABASE st = FOODS_DATABASE st' -> st = st'.
Proof. destruct st, st'. simpl. intros -> -> ->. reflexivity. Qed.

Lemma expired_later (now now' : Calendar.datetime) (k : string) :
  (Calendar.day now < Calendar.day now' \/
   (Calendar.day now = Calendar.day now' /\ Calendar.micros now <= Calendar.micros now'))%Z ->
  expired now k = true -> expired now' k = true.
Proof.
  unfold expired, Calendar.before, Calendar.minus_days.
  destruct (Calendar.strptime k) as [d|]; [|discriminate]. simpl.
  intros Hle Hex. apply orb_true_iff in Hex. apply orb_true_iff.
  destruct Hex as [Hlt|Heq].
  - apply Z.ltb_lt in Hlt.
    destruct (Z.eq_dec d (Calendar.day now' - 4)%Z) as [Hd|Hd].
    + right. apply andb_true_iff. split; [apply Z.eqb_eq, Hd|apply Z.ltb_lt; lia].
    + left. apply Z.ltb_lt. lia.
  - apply andb_true_iff in Heq as [Hd Hm]. apply Z.eqb_eq in Hd. apply Z.ltb_lt in Hm.
    destruct Hle as [Hlt|[He Hmi]].
    + left. apply Z.ltb_lt. lia.
    + right. apply andb_true_iff. split; [apply Z.eqb_eq; lia|apply Z.ltb_lt; lia].
Qed.

Lemma midnight_reset_again (now now' : Calendar.datetime) (st : State A) :
  (Calendar.day now < Calendar.day now' \/
   (Calendar.day now = Calendar.day now' /\ Calendar.micros now <= Calendar.micros now'))%Z ->
  midnight_reset now' (midnight_reset now st) = midnight_reset now' st.
Proof.
  intros Hle. apply state_eq; try reflexivity.
  apply map_eq. intros k. rewrite !midnight_reset_lookup.
  destruct (expired now' k) eqn:E'; [reflexivity|].
  destruct (expired now k) eqn:E; [|reflexivity].
  rewrite (expired_later now now' k Hle E) in E'. discriminate.
Qed.

End ResetFacts.

(** X2: [midnight_reset] only deletes: it leaves [last_entry] and the
    food table alone, adds no day and changes no record it keeps; a
    second run at the same time changes nothing; and after a run, a run
    at a later time leaves what it alone would have left. *)
Theorem midnight_reset_only_deletes :
  forall (A : Type) (now : Calendar.datetime) (st : State A),
    last_entry (midnight_reset now st) = last_entry st /\
    FOODS_DATABASE (midnight_reset now st) = FOODS_DATABASE st /\
    (forall k d, daily_data (midnight_reset now st) !! k = Some d ->
                 daily_data st !! k = Some d) /\
    midnight_reset now (midnight_reset now st) = midnight_reset now st /\
    (forall now',
       (Calendar.day now < Calendar.day now' \/
        (Calendar.day now = Calendar.day now' /\
         Calendar.micros now <= Calendar.micros now'))%Z ->
       midnight_reset now' (midnight_reset now st) = midnight_reset now' st).
Proof.
  intros A now st. split; [reflexivity|]. split; [reflexivity|]. split; [|split].
  - intros k d. rewrite midnight_reset_lookup.
    destruct (expired now k); [discriminate|tauto].
  - apply midnight_reset_again. right. split; [reflexivity|lia].
  - intros now'. apply midnight_reset_again.
Qed.

(** X2 in use: the runs of two nights in a row. *)
Lemma midnight_reset_only_deletes_witness :
  let st := Example.run (A:=float)
              [Status (mkClock "2024-03-11" "09:00"); Status (mkClock "2024-03-12" "09:00");
               Status (mkClock "2024-03-15" "09:00")] in
  let first := Calendar.mkDatetime (Calendar.ordinal 2024 3 15) 60000000 in
  let second := Calendar.mkDatetime (Calendar.ordinal 2024 3 16) 60000000 in
  midnight_reset second (midnight_reset first st) = midnight_reset second st.
Proof.
  intros st first second.
  refine (proj2 (proj2 (proj2 (proj2 (midnight_reset_only_deletes float first st)))) second _).
  left. vm_compute. reflexivity.
Defined.

(** ** What a handler leaves alone *)

Section FrameFacts.
Context {A : Type} `{Number A}.
Variable STANDARD_UNITS : list (string * A).
Variable get_food_info : gmap string (A * A * A * A) -> string -> option (A * A * A * A).
Variable float_of_text : string -> option A.
Variable format_0f : A -> string.

Lemma init_day_other (data : gmap string (Day A)) (k k' : string) :
  k <> k' -> init_day k data !! k' = data !! k'.
Proof.
  intros Hne. unfold init_day. destruct (data !! k); [reflexivity|].
  apply lookup_insert_ne, Hne.
Qed.

Lemma undo_other (clock : Clock) (st : State A) (k : string) :
  today clock <> k -> daily_data (snd (undo clock st)) !! k = daily_data st !! k.
Proof.
  intros Hne. unfold undo. cbv zeta.
  destruct (pop _) as [[es e]|]; simpl.
  - rewrite lookup_insert_ne by exact Hne. apply init_day_other, Hne.
  - apply init_day_other, Hne.
Qed.

Lemma undo_frame (clock : Clock) (st : State A) :
  last_entry (snd (undo clock st)) = last_entry st /\
  FOODS_DATABASE (snd (undo clock st)) = FOODS_DATABASE st.
Proof. unfold undo. cbv zeta. destruct (pop _) as [[es e]|]; split; reflexivity. Qed.

Lemma record_entries_frame (k : string) (es : list (Entry A)) (st : State A) :
  FOODS_DATABASE (record_entries k es st) = FOODS_DATABASE st.
Proof.
  revert st. induction es as [|e es IH]; intros st; [reflexivity|].
  change (record_entries k (e :: es) st) with (record_entries k es (record_entry k e st)).
  rewrite IH. reflexivity.
Qed.

Lemma handle_food_message_other (text : string) (clock : Clock) (st : State A) (k : string) :
  today clock <> k ->
  daily_data (snd (handle_food_message STANDARD_UNITS get_food_info text clock st)) !! k
  = daily_data st !! k.
Proof.
  intros Hne. unfold handle_food_message.
  destruct (Text.starts_with _ _); [reflexivity|].
  destruct (parse_food_entry _ _ text) as [|d ds].
  - simpl. apply init_day_other, Hne.
  - rewrite fold_record_declaration. cbn [snd].
    rewrite (record_entries_other _ _ _ _ Hne). simpl. apply init_day_other, Hne.
Qed.

Lemma handle_food_message_frame (text : string) (clock : Clock) (st : State A) :
  FOODS_DATABASE (snd (handle_food_message STANDARD_UNITS get_food_info text clock st))
  = FOODS_DATABASE st.
Proof.
  unfold handle_food_message.
  destruct (Text.starts_with _ _); [reflexivity|].
  destruct (parse_food_entry _ _ text) as [|d ds]; [reflexivity|].
  rewrite fold_record_declaration. cbn [snd]. rewrite record_entries_frame. reflexivity.
Qed.

Lemma add_food_other (args : list string) (clock : Clock) (st : State A) (k : string) :
  today clock <> k ->
  daily_data (snd (add_food float_of_text format_0f args clock st)) !! k = daily_data st !! k.
Proof.
  intros Hne. unfold add_food. destruct args as [|a args]; [reflexivity|].
  destruct (Text.has_char _ _).
  - unfold add_to_database.
    repeat (match goal with
            | |- context [match ?x with _ => _ end] => destruct x
            end; try reflexivity).
  - destruct (quick_add_fields _) as [[grams m]|]; [|reflexivity].
    cbn [snd]. rewrite (record_entry_other _ _ _ _ Hne). simpl. apply init_day_other, Hne.
Qed.

Lemma apply_op_other (st : State A) (op : Op) (clock : Clock) (k : string) :
  op_clock op = Some clock ->
  today clock <> k ->
  daily_data (apply_op STANDARD_UNITS get_food_info float_of_text format_0f st op) !! k
  = daily_data st !! k.
Proof.
  destruct op as [text c|args c|c|c|now]; simpl; intros [= <-] Hne.
  - apply handle_food_message_other, Hne.
  - apply add_food_other, Hne.
  - apply undo_other, Hne.
  - apply init_day_other, Hne.
Qed.


End FrameFacts.

(** X3: a handler that reads the clock ([handle_food_message],
    [add_food], [undo], and [init_day] as [status] runs it) changes no
    other day than today: the record of every other date is what it
    was. *)
Theorem handlers_touch_today_only :
  forall (A : Type) (HA : Number A) STANDARD_UNITS get_food_info float_of_text format_0f
         (st : State A) (op : Op) (clock : Clock) (k : string),
    op_clock op = Some clock ->
    today clock <> k ->
    daily_data (apply_op STANDARD_UNITS get_food_info float_of_text format_0f st op) !! k
    = daily_data st !! k.
Proof.
  intros A HA STANDARD_UNITS get_food_info float_of_text format_0f. apply apply_op_other.
Qed.

(** X3 in use: a message of the 16th leaves the 15th as it was. *)
Lemma handlers_touch_today_only_witness :
  let st := Example.run (A:=float) Example.day_of_meals in
  daily_data (snd (handle_food_message Example.UNITS Example.lookup_exact "100g rice"
                     (mkClock "2024-03-16" "08:00") st)) !! "2024-03-15"
  = daily_data st !! "2024-03-15".
Proof.
  intros st.
  exact (handlers_touch_today_only float _ Example.UNITS Example.lookup_exact
           Example.no_float Example.no_label st
           (Message "100g rice" (mkClock "2024-03-16" "08:00"))
           (mkClock "2024-03-16" "08:00") "2024-03-15"
           eq_refl ltac:(discriminate)).
Defined.


(** [/add Fromage Blanc |75|7.5|3|4.5] on a catalog that reads its
    numbers with [read]: the food is saved under "fromage blanc" with
    the four values in the order of the fields; and a field that is no
    number leaves the table as it was. *)
Lemma add_food_saves_the_fields_in_order :
  let read := fun s : string =>
                if String.eqb s "75" then Some 75%float
                else if String.eqb s "7.5" then Some 7.5%float
                else if String.eqb s "3" then Some 3%float
                else if String.eqb s "4.5" then Some 4.5%float
                else None in
  let st := initial (A:=float) Example.FOODS in
  add_food read Example.no_label ["Fromage"; "Blanc"; "|75|7.5|3|4.5"] Example.clock st
  = (AddSaved "fromage blanc" (75, 7.5, 3, 4.5)%float,
     mkState ∅ None (<["fromage blanc" := (75, 7.5, 3, 4.5)%float]> Example.FOODS)) /\
  add_food read Example.no_label ["x|75|7.5|trois|4.5"] Example.clock st
  = (AddBadNumber, st) /\
  add_food read Example.no_label ["x|75|7.5|3"] Example.clock st = (AddBadShape, st).
Proof. cbv zeta. repeat split; vm_compute; reflexivity. Qed.

(** ** Several undos *)

Section UndoManyFacts.
Context {A : Type} `{Number A}.

Lemma undo_many_consistent `{!ExactCancel A} (clock : Clock) (n : nat) (st : State A) :
  consistent st -> consistent (snd (undo_many clock n st)).
Proof.
  revert st. induction n as [|n IH]; intros st Hc; simpl; [exact Hc|].
  pose proof (consistent_undo st clock Hc) as Hu.
  destruct (undo clock st) as [reply st1]. simpl in Hu.
  specialize (IH st1 Hu). destruct (undo_many clock n st1) as [replies st2].
  exact IH.
Qed.

Lemma undo_many_other (clock : Clock) (n : nat) (st : State A) (k : string) :
  today clock <> k ->
  daily_data (snd (undo_many clock n st)) !! k = daily_data st !! k.
Proof.
  intros Hne. revert st. induction n as [|n IH]; intros st; simpl; [reflexivity|].
  pose proof (undo_other clock st k Hne) as Hu.
  destruct (undo clock st) as [reply st1]. simpl in Hu.
  specialize (IH st1). destruct (undo_many clock n st1) as [replies st2].
  simpl in *. congruence.
Qed.

Lemma undo_many_pops (clock : Clock) (es base : list (Entry A)) (st : State A) :
  entries (day_of (daily_data st) (today clock)) = base ++ es ->
  fst (undo_many clock (List.length es) st) = Undone <$> rev es /\
  entries (day_of (daily_data (snd (undo_many clock (List.length es) st))) (today clock))
  = base.
Proof.
  revert st. induction es as [|e es IH] using rev_ind; intros st He.
  - simpl. rewrite app_nil_r in He. split; [reflexivity|exact He].
  - rewrite length_app. simpl. rewrite Nat.add_1_r. simpl.
    rewrite app_assoc in He. rewrite (undo_snoc _ _ _ _ He).
    match goal with
    | |- context [undo_many clock (List.length es) ?s] =>
        destruct (IH s) as [Hr Hb]
    end.
    { simpl. unfold day_of. rewrite lookup_insert_eq. reflexivity. }
    destruct (undo_many clock (List.length es) _) as [replies st2].
    simpl in *. rewrite rev_app_distr. simpl. rewrite Hr. split; [reflexivity|exact Hb].
Qed.

End UndoManyFacts.

(** X5: [undo] takes the entries of today back one by one, the last
    recorded first: when today's entries end with the entries [es], as
    many undos as [es] has entries answer with them in reverse order
    and leave the entries before them; the other days are left alone;
    one more undo on a day thus emptied answers that there is nothing
    to undo; and in exact arithmetic the totals follow the entries. *)
Theorem undo_many_takes_back :
  forall (A : Type) (HA : Number A) (clock : Clock) (es base : list (Entry A)) (st : State A),
    entries (day_of (daily_data st) (today clock)) = base ++ es ->
    let result := undo_many clock (List.length es) st in
    fst result = Undone <$> rev es /\
    entries (day_of (daily_data (snd result)) (today clock)) = base /\
    (forall k, today clock <> k -> daily_data (snd result) !! k = daily_data st !! k) /\
    (base = [] -> fst (undo clock (snd result)) = NothingToUndo) /\
    (ExactCancel A -> consistent st ->
     totals (day_of (daily_data (snd result)) (today clock))
     = sum_macros (macros <$> base)).
Proof.
  intros A HA clock es base st He result. subst result.
  destruct (undo_many_pops clock es base st He) as [Hr Hb].
  split; [exact Hr|]. split; [exact Hb|]. split; [|split].
  - intros k Hne. apply undo_many_other, Hne.
  - intros Hbase. rewrite Hbase in Hb. rewrite (undo_empty _ _ Hb). reflexivity.
  - intros Hex Hc.
    pose proof (undo_many_consistent clock (List.length es) st Hc) as Hc'.
    rewrite (consistent_day_of _ (today clock) Hc'), Hb. reflexivity.
Qed.

(** X5 in use: two entries recorded and undone. *)
Lemma undo_many_takes_back_witness :
  let e1 := mkEntry "rice" 200%float (mkMacros 260%float 5%float 1%float 56%float) "12:30" in
  let e2 := mkEntry "egg" 60%float (mkMacros 93%float 8%float 7%float 1%float) "12:31" in
  let st := record_entries "2024-03-15" [e1; e2] (initial (A:=float) Example.FOODS) in
  fst (undo_many Example.clock 2 st) = [Undone e2; Undone e1] /\
  entries (day_of (daily_data (snd (undo_many Example.clock 2 st))) "2024-03-15") = [].
Proof.
  intros e1 e2 st.
  pose proof (undo_many_takes_back float _ Example.clock [e1; e2] [] st
                ltac:(vm_compute; reflexivity)) as Hall.
  destruct Hall as (Hr & Hb & _).
  split; [exact Hr|exact Hb].
Defined.

(** ** Texts the parser makes nothing of *)

Section NoMatchFacts.
Context {R : Type}.

(** The positions from which no digit is ahead. *)
Let digitless (s : cursor) : Prop :=
  Forall (fun c => Text.is_digit c = false) (ahead s).

(** The continuations that fail from such positions. *)
Let fails (k : cursor -> captures -> option R) : Prop :=
  forall s c, digitless s -> k s c = None.

Lemma if_shorter_fails (s : cursor) (k : cursor -> captures -> option R) :
  fails k -> fails (if_shorter s k).
Proof.
  intros Hk s' c' Hs'. unfold if_shorter.
  destruct (Nat.ltb _ _); [apply Hk, Hs'|reflexivity].
Qed.

Lemma symbol_fails (p : ascii -> bool) (k : cursor -> captures -> option R) :
  fails k -> fails (Regex.run (Symbol p) k).
Proof.
  intros Hk s c Hs. simpl. unfold digitless in Hs.
  destruct (ahead s) as [|a l]; [reflexivity|].
  destruct (p a); [|reflexivity]. apply Hk. unfold digitless. simpl.
  inversion Hs; assumption.
Qed.

Lemma greedy_star_fails (p : ascii -> bool) (k : cursor -> captures -> option R) (fuel : nat) :
  fails k -> fails (greedy_star (Regex.run (Symbol p)) k fuel).
Proof.
  intros Hk. induction fuel as [|fuel IH]; intros s c Hs; cbn [greedy_star].
  - apply Hk, Hs.
  - rewrite (symbol_fails p _ (if_shorter_fails s _ IH) s c Hs). apply Hk, Hs.
Qed.

Lemma lazy_star_fails (p : ascii -> bool) (k : cursor -> captures -> option R) (fuel : nat) :
  fails k -> fails (lazy_star (Regex.run (Symbol p)) k fuel).
Proof.
  intros Hk. induction fuel as [|fuel IH]; intros s c Hs; cbn [lazy_star];
    rewrite (Hk s c Hs); [reflexivity|].
  apply (symbol_fails p _ (if_shorter_fails s _ IH) s c Hs).
Qed.

(** A number fails where no digit is ahead. *)
Lemma number_fails (k : cursor -> captures -> option R) :
  fails (Regex.run Patterns.number k).
Proof.
  intros s c Hs. unfold digitless in Hs. unfold Patterns.number, Plus, Patterns.digit.
  cbn [Regex.run].
  destruct (ahead s) as [|a l]; [reflexivity|].
  inversion Hs as [|? ? Ha Hl]; subst. rewrite Ha. reflexivity.
Qed.

Lemma pattern_fails (k : cursor -> captures -> option R) :
  fails (Regex.run Patterns.pattern k).
Proof.
  intros s c Hs. unfold Patterns.pattern.
  cbn [Patterns.Seq]. cbn [Regex.run].
  destruct (seen s); [|reflexivity].
  apply number_fails, Hs.
Qed.

Lemma pattern_inv_fails (k : cursor -> captures -> option R) :
  fails (Regex.run Patterns.pattern_inv k).
Proof.
  intros s c Hs. unfold Patterns.pattern_inv, LazyPlus, Plus, Dot, Patterns.space.
  cbn [Patterns.Seq]. cbn [Regex.run].
  destruct (seen s); [|reflexivity].
  unfold digitless in Hs. destruct (ahead s) as [|a l] eqn:E; [reflexivity|].
  destruct (negb (Text.is_newline a)); [|reflexivity].
  apply (lazy_star_fails (fun c => negb (Text.is_newline c))).
  - intros s1 c1 Hs1. unfold digitless in Hs1.
    destruct (ahead s1) as [|b l1] eqn:E1; [reflexivity|].
    destruct (Text.is_space b); [|reflexivity].
    apply (greedy_star_fails Text.is_space).
    + intros s2 c2 Hs2. apply number_fails, Hs2.
    + unfold digitless. simpl. inversion Hs1; assumption.
  - unfold digitless. simpl. inversion Hs; assumption.
Qed.

End NoMatchFacts.

Section DigitFreeFacts.
Context {A : Type} `{Number A}.
Variable STANDARD_UNITS : list (string * A).

Lemma digit_free_Forall (s : string) :
  digit_free s = true <-> Forall (fun c => Text.is_digit c = false) (Text.chars s).
Proof.
  unfold digit_free. rewrite forallb_forall, Forall_forall. split.
  - intros Hf c Hc. apply negb_true_iff, Hf, list_elem_of_In, Hc.
  - intros Hf c Hc. apply negb_true_iff, Hf, list_elem_of_In, Hc.
Qed.

(** An item without a digit matches neither pattern. *)
Lemma match_item_digit_free (item : string) :
  digit_free item = true -> match_item (A:=A) item = None.
Proof.
  intros Hd. apply digit_free_Forall in Hd. unfold match_item, re_match, match_at.
  rewrite (pattern_fails _ (Cursor [] (Text.chars item)) [] Hd).
  rewrite (pattern_inv_fails _ (Cursor [] (Text.chars item)) [] Hd).
  reflexivity.
Qed.

Lemma is_digit_lower_char (c : ascii) : Text.is_digit (Text.lower_char c) = Text.is_digit c.
Proof. destruct c as [[] [] [] [] [] [] [] []]; reflexivity. Qed.

Lemma split_from_Forall (P : ascii -> Prop) (r : regex) (before piece : list ascii)
      (skip : nat) (l : list ascii) :
  Forall P piece -> Forall P l ->
  Forall (Forall P) (split_from r before piece skip l).
Proof.
  revert before piece skip. induction l as [|a l IH]; intros before piece skip Hp Hl.
  - destruct skip; simpl; repeat constructor; apply Forall_rev, Hp.
  - inversion Hl as [|? ? Ha Hl']; subst.
    destruct skip as [|skip]; [|simpl; apply IH; assumption].
    cbn [split_from].
    assert (Hpa : Forall P (a :: piece)) by (constructor; assumption).
    destruct (match_at _ _) as [[s' c']|]; [|apply IH; assumption].
    destruct (_ - _); [apply IH; assumption|].
    constructor; [apply Forall_rev, Hp|]. apply IH; [constructor|assumption].
Qed.

Lemma items_digit_free (text : string) :
  digit_free text = true -> Forall (fun item => digit_free item = true) (items text).
Proof.
  intros Hd. apply digit_free_Forall in Hd.
  unfold items, split_items, re_split.
  apply Forall_forall. intros item Hin.
  apply list_elem_of_filter in Hin as [_ Hin].
  apply list_elem_of_fmap in Hin as (piece & -> & Hin).
  apply list_elem_of_fmap in Hin as (l & -> & Hin).
  assert (Hall : Forall (Forall (fun c => Text.is_digit c = false))
                   (split_from Patterns.separator [] [] 0
                      (Text.chars (Text.strip (Text.lower text))))).
  { apply split_from_Forall; [constructor|].
    unfold Text.strip, Text.lower. rewrite !chars_text. unfold Text.strip_chars.
    apply Forall_rev, lstrip_chars_clean, Forall_rev, lstrip_chars_clean.
    apply Forall_forall. intros c Hc. apply list_elem_of_fmap in Hc as (c0 & -> & Hc0).
    rewrite is_digit_lower_char. rewrite Forall_forall in Hd. apply Hd, Hc0. }
  rewrite Forall_forall in Hall. specialize (Hall l Hin).
  apply digit_free_Forall. unfold Text.strip. rewrite !chars_text. unfold Text.strip_chars.
  apply Forall_rev, lstrip_chars_clean, Forall_rev, lstrip_chars_clean, Hall.
Qed.

Lemma parse_digit_free (info : string -> option (A * A * A * A)) (text : string) :
  digit_free text = true -> parse_food_entry STANDARD_UNITS info text = [].
Proof.
  intros Hd. rewrite parse_food_entry_in_order.
  pose proof (items_digit_free text Hd) as Hall.
  induction Hall as [|item its Hi Hits IH]; [reflexivity|].
  cbn [omap list_omap]. unfold parse_item at 1.
  rewrite (match_item_digit_free item Hi). exact IH.
Qed.

End DigitFreeFacts.

(** X6: a text of the ASCII range without a digit is not a food entry.
    An item without a digit matches neither pattern, so the parser
    returns no declaration for such a text; [handle_food_message] then
    answers that it did not understand and records nothing: it only
    makes sure that today exists, and every day reads as before. *)
Theorem text_without_digit_is_not_understood :
  forall (A : Type) (HA : Number A) STANDARD_UNITS get_food_info
         (text : string) (clock : Clock) (st : State A),
    isascii text = true ->
    digit_free text = true ->
    (forall info, parse_food_entry STANDARD_UNITS info text = []) /\
    (Text.starts_with ["/"%char] (Text.chars text) = false ->
     handle_food_message STANDARD_UNITS get_food_info text clock st
     = (NotUnderstood, with_data st (init_day (today clock) (daily_data st))) /\
     forall k, day_of (daily_data
                         (snd (handle_food_message STANDARD_UNITS get_food_info text clock st))) k
               = day_of (daily_data st) k).
Proof.
  intros A HA STANDARD_UNITS get_food_info text clock st _ Hd.
  split; [intros info; apply parse_digit_free, Hd|].
  intros Hcmd.
  assert (Hh : handle_food_message STANDARD_UNITS get_food_info text clock st
               = (NotUnderstood, with_data st (init_day (today clock) (daily_data st)))).
  { unfold handle_food_message. rewrite Hcmd.
    rewrite (parse_digit_free STANDARD_UNITS _ text Hd). reflexivity. }
  split; [exact Hh|]. intros k. rewrite Hh. simpl. apply day_of_init_day.
Qed.

(** X6 in use: a greeting. *)
Lemma text_without_digit_is_not_understood_witness :
  fst (handle_food_message (A:=float) Example.UNITS Example.lookup_exact
         "Bonjour, du riz et des oeufs" Example.clock (initial Example.FOODS))
  = NotUnderstood.
Proof.
  exact (f_equal fst
           (proj1 (proj2 (text_without_digit_is_not_understood float _ Example.UNITS
                            Example.lookup_exact "Bonjour, du riz et des oeufs"
                            Example.clock (initial Example.FOODS)
                            ltac:(vm_compute; reflexivity)
                            ltac:(vm_compute; reflexivity))
                         ltac:(vm_compute; reflexivity)))).
Defined.

(** ** Upper and lower case *)

Section CaseFacts.
Context {A : Type} `{Number A}.

Lemma lower_upper_char (c : ascii) :
  Text.lower_char (upper_char c) = Text.lower_char c.
Proof. destruct c as [[] [] [] [] [] [] [] []]; reflexivity. Qed.

Lemma lower_upper (s : string) : Text.lower (upper s) = Text.lower s.
Proof.
  unfold Text.lower, upper. rewrite chars_text, map_map. f_equal.
  apply map_ext. intros c. apply lower_upper_char.
Qed.

(** Two texts with the same capitals have the same small letters. *)
Lemma same_upper_same_lower (s s' : string) :
  upper s' = upper s -> Text.lower s' = Text.lower s.
Proof.
  intros Hu. rewrite <- (lower_upper s'), <- (lower_upper s), Hu. reflexivity.
Qed.

Lemma upper_char_slash (c : ascii) :
  Ascii.eqb "/" (upper_char c) = Ascii.eqb "/" c.
Proof. destruct c as [[] [] [] [] [] [] [] []]; reflexivity. Qed.

Lemma starts_with_slash_upper (s : string) :
  Text.starts_with ["/"%char] (Text.chars (upper s))
  = Text.starts_with ["/"%char] (Text.chars s).
Proof.
  unfold upper. rewrite chars_text. destruct (Text.chars s) as [|c l]; [reflexivity|].
  cbn [map Text.starts_with]. rewrite upper_char_slash. reflexivity.
Qed.

Lemma same_upper_same_command (s s' : string) :
  upper s' = upper s ->
  Text.starts_with ["/"%char] (Text.chars s')
  = Text.starts_with ["/"%char] (Text.chars s).
Proof.
  intros Hu. rewrite <- (starts_with_slash_upper s'), <- (starts_with_slash_upper s), Hu.
  reflexivity.
Qed.

Lemma parse_same_lower (units : list (string * A)) (info : string -> option (A * A * A * A))
      (s s' : string) :
  Text.lower s' = Text.lower s ->
  parse_food_entry units info s' = parse_food_entry units info s.
Proof. intros Hl. unfold parse_food_entry, split_items. rewrite Hl. reflexivity. Qed.

End CaseFacts.

(** X7: the case of the letters of a message does not count.  Two
    texts of the ASCII range that differ by the case of their letters
    only (they are the same text once in capitals) get the same
    declarations from the parser, and the same answer and the same
    state from [handle_food_message]. *)
Theorem message_case_does_not_count :
  forall (A : Type) (HA : Number A) STANDARD_UNITS
         (get_food_info : gmap string (A * A * A * A) -> string -> option (A * A * A * A))
         (text text' : string) (clock : Clock) (st : State A),
    isascii text = true ->
    isascii text' = true ->
    upper text' = upper text ->
    (forall info, parse_food_entry STANDARD_UNITS info text'
                  = parse_food_entry STANDARD_UNITS info text) /\
    handle_food_message STANDARD_UNITS get_food_info text' clock st
    = handle_food_message STANDARD_UNITS get_food_info text clock st.
Proof.
  intros A HA STANDARD_UNITS get_food_info text text' clock st _ _ Hu.
  pose proof (same_upper_same_lower _ _ Hu) as Hl.
  split; [intros info; apply parse_same_lower, Hl|].
  unfold handle_food_message.
  rewrite (same_upper_same_command _ _ Hu), (parse_same_lower _ _ _ _ Hl). reflexivity.
Qed.

(** X7 in use: "200G Rice, 3 EGG" is recorded as "200g rice, 3 egg"
    is. *)
Lemma message_case_does_not_count_witness :
  handle_food_message (A:=float) Example.UNITS Example.lookup_exact
    "200G Rice, 3 EGG" Example.clock (initial Example.FOODS)
  = handle_food_message Example.UNITS Example.lookup_exact
      "200g rice, 3 egg" Example.clock (initial Example.FOODS).
Proof.
  exact (proj2 (message_case_does_not_count float _ Example.UNITS Example.lookup_exact
                  "200g rice, 3 egg" "200G Rice, 3 EGG" Example.clock
                  (initial Example.FOODS)
                  ltac:(vm_compute; reflexivity) ltac:(vm_compute; reflexivity)
                  ltac:(vm_compute; reflexivity))).
Defined.

(** The two messages of the example are recorded: 200 g of rice and
    three eggs of 60 g. *)
Lemma capitals_are_recorded :
  (fun r => match r with
            | Recorded es nf => Some (map (fun e => (food e, quantity e)) es, nf)
            | _ => None
            end)
    (fst (handle_food_message (A:=float) Example.UNITS Example.lookup_exact
            "200G Rice, 3 EGG" Example.clock (initial Example.FOODS)))
  = Some ([("rice", 200%float); ("egg", 180%float)], []).
Proof. vm_compute. reflexivity. Qed.

(** ** The keys of the days *)

Section KeyFacts.

Lemma Z_in_range (lo : Z) (n : nat) (x : Z) :
  (lo <= x < lo + Z.of_nat n)%Z -> In x (map (fun i => (lo + Z.of_nat i)%Z) (seq 0 n)).
Proof.
  intros Hx. apply in_map_iff. exists (Z.to_nat (x - lo)). split; [lia|].
  apply in_seq. lia.
Qed.

Lemma date_format_split :
  Calendar.date_format =
  Cat (Group 1 (Patterns.Seq [Patterns.digit; Patterns.digit; Patterns.digit; Patterns.digit]))
      date_format_tail.
Proof. reflexivity. Qed.

(** Four digits are the year. *)
Lemma year_match (R : Type) (k : cursor -> captures -> option R)
      (ya yb yc yd : ascii) (before rest : list ascii) (c : captures) :
  Text.is_digit ya = true -> Text.is_digit yb = true ->
  Text.is_digit yc = true -> Text.is_digit yd = true ->
  Regex.run (Group 1 (Patterns.Seq [Patterns.digit; Patterns.digit;
                                    Patterns.digit; Patterns.digit]))
            k (Cursor before (ya :: yb :: yc :: yd :: rest)) c
  = k (Cursor (yd :: yc :: yb :: ya :: before) rest) ((1, [ya; yb; yc; yd]) :: c).
Proof.
  intros Ha Hb Hc Hd. unfold Patterns.digit. cbn [Patterns.Seq Regex.run ahead seen].
  rewrite Ha, Hb, Hc, Hd. unfold consumed. cbn [ahead List.length].
  replace (S (S (S (S (List.length rest)))) - List.length rest) with 4 by lia.
  reflexivity.
Qed.

(** A month and a day of two digits each are read to the end. *)
Lemma month_day_match (m d : Z) :
  (1 <= m <= 12)%Z -> (1 <= d <= 31)%Z ->
  forall (before : list ascii) (c : captures),
    Regex.run date_format_tail (fun s' c' => Some (s', c'))
              (Cursor before (Civil.month_day m d)) c
    = Some (Cursor (rev (Civil.month_day m d) ++ before) [],
            (3, Civil.pad2 d) :: (2, Civil.pad2 m) :: c).
Proof.
  intros Hm Hd.
  assert (Him : In m (map (fun i => (1 + Z.of_nat i)%Z) (seq 0 12)))
    by (apply Z_in_range; lia).
  assert (Hid : In d (map (fun i => (1 + Z.of_nat i)%Z) (seq 0 31)))
    by (apply Z_in_range; lia).
  clear Hm Hd. simpl in Him, Hid.
  repeat (destruct Him as [<-|Him]; [|]); try contradiction;
    repeat (destruct Hid as [<-|Hid]; [|]); try contradiction;
    intros before c; vm_compute; reflexivity.
Qed.

End KeyFacts.

Section KeyRoundTrip.

Lemma digit_char_facts (n : Z) :
  (0 <= n <= 9)%Z ->
  Text.is_digit (Civil.digit_char n) = true /\
  (Text.code (Civil.digit_char n) - 48)%N = Z.to_N n.
Proof.
  intros Hn.
  assert (Hi : In n (map (fun i => (0 + Z.of_nat i)%Z) (seq 0 10)))
    by (apply Z_in_range; lia).
  simpl in Hi. repeat (destruct Hi as [<-|Hi]; [split; reflexivity|]). contradiction.
Qed.

Lemma digit_char_inj (n n' : Z) :
  (0 <= n <= 9)%Z -> (0 <= n' <= 9)%Z ->
  Civil.digit_char n = Civil.digit_char n' -> n = n'.
Proof.
  intros Hn Hn' Heq.
  pose proof (proj2 (digit_char_facts n Hn)) as H1.
  pose proof (proj2 (digit_char_facts n' Hn')) as H2.
  rewrite Heq in H1. lia.
Qed.

(** The four digits of a number below 10000. *)
Lemma pad4_digits (n : Z) :
  (0 <= n <= 9999)%Z ->
  (0 <= n / 1000 <= 9 /\ 0 <= n / 100 mod 10 <= 9 /\
   0 <= n / 10 mod 10 <= 9 /\ 0 <= n mod 10 <= 9 /\
   n = 1000 * (n / 1000) + 100 * (n / 100 mod 10) + 10 * (n / 10 mod 10) + n mod 10)%Z.
Proof. intros Hn. Z.div_mod_to_equations. lia. Qed.

(** The number a field of two digits reads. *)
Lemma field_pad2 (n : Z) (c : captures) (g : nat) :
  (0 <= n <= 99)%Z ->
  Calendar.field ((g, Civil.pad2 n) :: c) g = n.
Proof.
  intros Hn. unfold Calendar.field. cbn [group]. rewrite Nat.eqb_refl.
  unfold default. cbn [from_option id]. rewrite chars_text. unfold Civil.pad2. cbn [fold_left].
  assert (Hq : (0 <= n / 10 <= 9)%Z) by (Z.div_mod_to_equations; lia).
  assert (Hr : (0 <= n mod 10 <= 9)%Z) by (Z.div_mod_to_equations; lia).
  destruct (digit_char_facts (n / 10) Hq) as [Ha Hva].
  destruct (digit_char_facts (n mod 10) Hr) as [Hb Hvb].
  rewrite Ha, Hb, Hva, Hvb. Z.div_mod_to_equations. lia.
Qed.

(** The number a field of four digits reads. *)
Lemma field_pad4 (n : Z) (c : captures) (g : nat) :
  (0 <= n <= 9999)%Z ->
  Calendar.field ((g, Civil.pad4 n) :: c) g = n.
Proof.
  intros Hn. unfold Calendar.field. cbn [group]. rewrite Nat.eqb_refl.
  unfold default. cbn [from_option id]. rewrite chars_text. unfold Civil.pad4. cbn [fold_left].
  pose proof (pad4_digits n Hn) as (Ha' & Hb' & Hc' & Hd' & Hsum).
  destruct (digit_char_facts (n / 1000) Ha') as [Ha Hva].
  destruct (digit_char_facts (n / 100 mod 10) Hb') as [Hb Hvb].
  destruct (digit_char_facts (n / 10 mod 10) Hc') as [Hc Hvc].
  destruct (digit_char_facts (n mod 10) Hd') as [Hd Hvd].
  rewrite Ha, Hb, Hc, Hd, Hva, Hvb, Hvc, Hvd.
  clear Ha Hb Hc Hd Hva Hvb Hvc Hvd. Z.div_mod_to_equations. lia.
Qed.

Lemma field_skip (g g' : nat) (l : list ascii) (c : captures) :
  g <> g' -> Calendar.field ((g, l) :: c) g' = Calendar.field c g'.
Proof.
  intros Hne. unfold Calendar.field. cbn [group].
  rewrite (proj2 (Nat.eqb_neq g g') Hne). reflexivity.
Qed.

Lemma days_in_month_le (y m : Z) : (Calendar.days_in_month y m <= 31)%Z.
Proof.
  unfold Calendar.days_in_month.
  repeat (match goal with |- context [if ?b then _ else _] => destruct b end); lia.
Qed.

Lemma valid_bounds (c : Civil.date) :
  Civil.valid c = true ->
  (1000 <= Civil.year c <= 9999 /\ 1 <= Civil.month c <= 12 /\
   1 <= Civil.mday c <= Calendar.days_in_month (Civil.year c) (Civil.month c))%Z.
Proof.
  unfold Civil.valid. intros Hv.
  repeat (apply andb_true_iff in Hv as [Hv ?]). lia.
Qed.

Lemma year_match_pad4 (R : Type) (k : cursor -> captures -> option R)
      (y : Z) (before rest : list ascii) (c : captures) :
  (0 <= y <= 9999)%Z ->
  Regex.run (Group 1 (Patterns.Seq [Patterns.digit; Patterns.digit;
                                    Patterns.digit; Patterns.digit]))
            k (Cursor before (Civil.pad4 y ++ rest)) c
  = k (Cursor (rev (Civil.pad4 y) ++ before) rest) ((1, Civil.pad4 y) :: c).
Proof.
  intros Hy. pose proof (pad4_digits y Hy) as (Ha & Hb & Hc & Hd & _).
  apply year_match; apply digit_char_facts; assumption.
Qed.

(** [strptime] reads a key back. *)
Lemma strptime_get_today_key (c : Civil.date) :
  Civil.valid c = true ->
  Calendar.strptime (get_today_key c) = Some (Civil.ordinal c).
Proof.
  intros Hv. destruct (valid_bounds c Hv) as (Hy & Hm & Hd).
  pose proof (days_in_month_le (Civil.year c) (Civil.month c)) as Hle.
  unfold Calendar.strptime, get_today_key. rewrite chars_text.
  unfold match_at. rewrite date_format_split.
  change (Regex.run (Cat ?r1 ?r2) ?k ?s ?c0) with (Regex.run r1 (Regex.run r2 k) s c0).
  rewrite year_match_pad4 by lia.
  rewrite month_day_match by lia.
  cbv beta iota.
  rewrite (field_skip 3 1), (field_skip 2 1), field_pad4 by (lia || discriminate).
  rewrite (field_skip 3 2), field_pad2 by (lia || discriminate).
  rewrite field_pad2 by lia.
  rewrite (proj2 (Z.leb_le 1 _)) by lia.
  rewrite (proj2 (Z.leb_le _ _)) by lia.
  reflexivity.
Qed.

(** The key tells the date. *)
Lemma get_today_key_inj (c c' : Civil.date) :
  Civil.valid c = true -> Civil.valid c' = true ->
  get_today_key c = get_today_key c' -> c = c'.
Proof.
  intros Hv Hv' Heq.
  destruct (valid_bounds c Hv) as (Hy & Hm & Hd).
  destruct (valid_bounds c' Hv') as (Hy' & Hm' & Hd').
  pose proof (days_in_month_le (Civil.year c) (Civil.month c)) as Hle.
  pose proof (days_in_month_le (Civil.year c') (Civil.month c')) as Hle'.
  apply (f_equal Text.chars) in Heq. unfold get_today_key in Heq.
  rewrite !chars_text in Heq.
  unfold Civil.pad4, Civil.month_day, Civil.pad2 in Heq. cbn [app] in Heq.
  injection Heq as E1 E2 E3 E4 E5 E6 E7 E8.
  pose proof (pad4_digits (Civil.year c) ltac:(lia)) as (? & ? & ? & ? & Sy).
  pose proof (pad4_digits (Civil.year c') ltac:(lia)) as (? & ? & ? & ? & Sy').
  apply digit_char_inj in E1, E2, E3, E4; try assumption.
  apply digit_char_inj in E5, E6, E7, E8; try (Z.div_mod_to_equations; lia).
  destruct c as [y m d], c' as [y' m' d']. simpl in *.
  f_equal.
  - lia.
  - Z.div_mod_to_equations. lia.
  - Z.div_mod_to_equations. lia.
Qed.

End KeyRoundTrip.

(** X8: the key [get_today_key] makes of a date (of the years 1000 to
    9999) is read back by the [strptime] of [midnight_reset] as that
    date, and two dates never share a key. *)
Theorem date_key_round_trip :
  forall c : Civil.date,
    Civil.valid c = true ->
    Calendar.strptime (get_today_key c) = Some (Civil.ordinal c) /\
    (forall c', Civil.valid c' = true -> get_today_key c = get_today_key c' -> c = c').
Proof.
  intros c Hv. split; [apply strptime_get_today_key, Hv|].
  intros c' Hv'. apply get_today_key_inj; assumption.
Qed.

(** X8 in use: the 29th of February 2024. *)
Lemma date_key_round_trip_witness :
  get_today_key (Civil.mkDate 2024 2 29) = "2024-02-29" /\
  Calendar.strptime (get_today_key (Civil.mkDate 2024 2 29))
  = Some (Civil.ordinal (Civil.mkDate 2024 2 29)).
Proof.
  split; [reflexivity|].
  exact (proj1 (date_key_round_trip (Civil.mkDate 2024 2 29) eq_refl)).
Defined.

(** X9: the nightly clean-up on the keys the program makes.  Run on
    the date [run_date] at a time after 00:00:00, [midnight_reset]
    deletes the record of the key of a date when that date is more than
    3 days before [run_date] and keeps it unchanged otherwise: the
    records of the day of the run and of the 3 days before it are always
    kept. *)
Theorem midnight_reset_on_date_keys :
  forall (A : Type) (run_date key_date : Civil.date) (micros : Z) (st : State A),
    Civil.valid run_date = true ->
    Civil.valid key_date = true ->
    (0 < micros)%Z ->
    daily_data (midnight_reset (Calendar.mkDatetime (Civil.ordinal run_date) micros) st)
      !! get_today_key key_date
    = if (Civil.ordinal key_date <? Civil.ordinal run_date - 3)%Z
      then None
      else daily_data st !! get_today_key key_date.
Proof.
  intros A run_date key_date micros st Hr Hk Hpos.
  rewrite midnight_reset_window by exact Hpos.
  rewrite (strptime_get_today_key key_date Hk). reflexivity.
Qed.

(** X9 in use: the run of 2024-03-01 at 00:01 and the record of
    2024-02-27, three days before across the 29th of February. *)
Lemma midnight_reset_on_date_keys_witness :
  let st := Example.run (A:=float) [Status (mkClock "2024-02-27" "09:00")] in
  daily_data (midnight_reset (Calendar.mkDatetime (Civil.ordinal (Civil.mkDate 2024 3 1))
                                                  60000000) st)
    !! get_today_key (Civil.mkDate 2024 2 27)
  = if (Civil.ordinal (Civil.mkDate 2024 2 27) <? Civil.ordinal (Civil.mkDate 2024 3 1) - 3)%Z
    then None
    else daily_data st !! get_today_key (Civil.mkDate 2024 2 27).
Proof.
  intros st.
  exact (midnight_reset_on_date_keys float (Civil.mkDate 2024 3 1) (Civil.mkDate 2024 2 27)
           60000000 st eq_refl eq_refl eq_refl).
Defined.

(** ** Commas and points in a quick add *)

Section RespectFacts.
Variable f : ascii -> ascii.
Context {R R' : Type}.
Variable h : R -> R'.

(** Continuations that do the same on a text and on its image. *)
Let alike (k : cursor -> captures -> option R) (k' : cursor -> captures -> option R') : Prop :=
  forall s c, k' (map_cursor f s) (map_captures f c) = h <$> k s c.

Lemma if_shorter_alike (s : cursor) k k' :
  alike k k' -> alike (if_shorter s k) (if_shorter (map_cursor f s) k').
Proof.
  intros Hk s' c'. unfold if_shorter. simpl. rewrite !length_map.
  destruct (Nat.ltb _ _); [apply Hk|reflexivity].
Qed.

Lemma greedy_star_alike (body : matcher (R:=R)) (body' : matcher (R:=R')) k k' (fuel : nat) :
  (forall ka ka', alike ka ka' -> alike (body ka) (body' ka')) ->
  alike k k' ->
  alike (greedy_star body k fuel) (greedy_star body' k' fuel).
Proof.
  intros Hb Hk. induction fuel as [|fuel IH]; intros s c; cbn [greedy_star].
  - apply Hk.
  - rewrite (Hb _ _ (if_shorter_alike s _ _ IH) s c).
    destruct (body _ s c); [reflexivity|apply Hk].
Qed.

Lemma lazy_star_alike (body : matcher (R:=R)) (body' : matcher (R:=R')) k k' (fuel : nat) :
  (forall ka ka', alike ka ka' -> alike (body ka) (body' ka')) ->
  alike k k' ->
  alike (lazy_star body k fuel) (lazy_star body' k' fuel).
Proof.
  intros Hb Hk. induction fuel as [|fuel IH]; intros s c; cbn [lazy_star];
    rewrite (Hk s c); destruct (k s c); try reflexivity.
  apply (Hb _ _ (if_shorter_alike s _ _ IH) s c).
Qed.

Lemma consumed_map (s s' : cursor) :
  consumed (map_cursor f s) (map_cursor f s') = map f (consumed s s').
Proof.
  unfold consumed. simpl. rewrite !length_map.
  symmetry. apply fmap_take.
Qed.

Lemma at_end_map (l : list ascii) :
  (forall c, Text.is_newline (f c) = Text.is_newline c) ->
  at_end (map f l) = at_end l.
Proof. intros Hf. destruct l as [|a [|b l]]; simpl; auto. Qed.

Lemma word_at_map (l : list ascii) :
  (forall c, Text.is_word (f c) = Text.is_word c) ->
  word_at (map f l) = word_at l.
Proof. intros Hf. destruct l as [|a l]; simpl; auto. Qed.

(** The matcher does on the image of a text what it does on the text,
    when the pattern does not see the change. *)
Lemma run_alike (r : regex) :
  respects f r ->
  forall k k', alike k k' -> alike (Regex.run r k) (Regex.run r k').
Proof.
  induction r as [|p|r1 IH1 r2 IH2|r1 IH1 r2 IH2|r1 IH1|r1 IH1|n r1 IH1| | |];
    intros Hr k k' Hk s c; cbn [Regex.run].
  - apply Hk.
  - simpl in Hr. simpl. destruct (ahead s) as [|a l]; [reflexivity|]. simpl.
    rewrite Hr. destruct (p a); [|reflexivity].
    apply (Hk (Cursor (a :: seen s) l) c).
  - destruct Hr as [Hr1 Hr2]. apply IH1; [exact Hr1|]. apply IH2; assumption.
  - destruct Hr as [Hr1 Hr2]. rewrite (IH1 Hr1 k k' Hk s c).
    destruct (Regex.run r1 k s c); [reflexivity|]. apply IH2; assumption.
  - simpl. rewrite length_map.
    apply greedy_star_alike; [|exact Hk]. intros ka ka'. apply IH1, Hr.
  - simpl. rewrite length_map.
    apply lazy_star_alike; [|exact Hk]. intros ka ka'. apply IH1, Hr.
  - apply (IH1 Hr); intros s' c'. rewrite consumed_map. apply (Hk s' ((n, consumed s s') :: c')).
  - simpl. destruct (seen s); simpl; [apply Hk|reflexivity].
  - simpl. rewrite (at_end_map _ Hr). destruct (at_end _); [apply Hk|reflexivity].
  - simpl. rewrite !(word_at_map _ Hr). destruct (xorb _ _); [apply Hk|reflexivity].
Qed.

End RespectFacts.

Section CommaFacts.
Context {A : Type} `{Number A}.

Lemma match_at_map (f : ascii -> ascii) (r : regex) (s : cursor) :
  respects f r ->
  match_at r (map_cursor f s)
  = (fun x => (map_cursor f (fst x), map_captures f (snd x))) <$> match_at r s.
Proof.
  intros Hr. unfold match_at.
  apply (run_alike f (fun x => (map_cursor f (fst x), map_captures f (snd x))) r Hr
           (fun s' c' => Some (s', c')) (fun s' c' => Some (s', c'))
           (fun s' c' => eq_refl) s []).
Qed.

Lemma replace_comma_chars (s : string) :
  Text.replace_comma s = Text.text (map comma_to_point (Text.chars s)).
Proof. reflexivity. Qed.

Lemma re_match_replace_comma (r : regex) (s : string) :
  respects comma_to_point r ->
  re_match r (Text.replace_comma s) = map_captures comma_to_point <$> re_match r s.
Proof.
  intros Hr. unfold re_match. rewrite replace_comma_chars, chars_text.
  change (Cursor [] (map comma_to_point (Text.chars s)))
    with (map_cursor comma_to_point (Cursor [] (Text.chars s))).
  rewrite (match_at_map _ _ _ Hr).
  destruct (match_at r _) as [[s' c']|]; reflexivity.
Qed.

Lemma group_replace_comma (c : captures) (n : nat) :
  group (map_captures comma_to_point c) n = Text.replace_comma <$> group c n.
Proof.
  induction c as [|[k l] c IH]; [reflexivity|]. simpl.
  destruct (Nat.eqb k n); [|exact IH]. simpl.
  rewrite replace_comma_chars, chars_text. reflexivity.
Qed.

Lemma comma_to_point_idempotent (c : ascii) :
  comma_to_point (comma_to_point c) = comma_to_point c.
Proof. destruct c as [[] [] [] [] [] [] [] []]; reflexivity. Qed.

Lemma replace_comma_idempotent (s : string) :
  Text.replace_comma (Text.replace_comma s) = Text.replace_comma s.
Proof.
  rewrite !replace_comma_chars, chars_text, map_map. f_equal.
  apply map_ext, comma_to_point_idempotent.
Qed.

(** The quantity that a group reads, before and after the change. *)
Lemma quantity_of_group_replace_comma (c : captures) (n : nat) :
  quantity_of (A:=A) (default "" (group (map_captures comma_to_point c) n))
  = quantity_of (default "" (group c n)).
Proof.
  rewrite group_replace_comma. unfold quantity_of.
  destruct (group c n) as [g|]; simpl; [|reflexivity].
  rewrite replace_comma_idempotent. reflexivity.
Qed.

Lemma lower_replace_comma (s : string) :
  Text.lower (Text.replace_comma s) = Text.replace_comma (Text.lower s).
Proof.
  unfold Text.lower. rewrite !replace_comma_chars, !chars_text, !map_map. f_equal.
  apply map_ext. intros c. destruct c as [[] [] [] [] [] [] [] []]; reflexivity.
Qed.

Lemma replace_comma_app (a b : string) :
  Text.replace_comma (a +:+ b) = Text.replace_comma a +:+ Text.replace_comma b.
Proof.
  induction a as [|c a IH]; [reflexivity|].
  change (Text.replace_comma (String c a +:+ b))
    with (String (comma_to_point c) (Text.replace_comma (a +:+ b))).
  rewrite IH. reflexivity.
Qed.

Lemma concat_replace_comma (args : list string) :
  String.concat " " (map Text.replace_comma args)
  = Text.replace_comma (String.concat " " args).
Proof.
  induction args as [|a [|b args] IH]; [reflexivity|reflexivity|].
  change (String.concat " " (map Text.replace_comma (a :: b :: args)))
    with (Text.replace_comma a +:+ " " +:+
          String.concat " " (map Text.replace_comma (b :: args))).
  change (String.concat " " (a :: b :: args))
    with (a +:+ " " +:+ String.concat " " (b :: args)).
  rewrite IH, !replace_comma_app. reflexivity.
Qed.

Lemma has_bar_replace_comma (s : string) :
  Text.has_char "|" (Text.replace_comma s) = Text.has_char "|" s.
Proof.
  unfold Text.has_char. rewrite replace_comma_chars, chars_text.
  induction (Text.chars s) as [|c l IH]; [reflexivity|].
  cbn [map existsb]. rewrite IH. f_equal.
  destruct c as [[] [] [] [] [] [] [] []]; reflexivity.
Qed.

Lemma respects_quick_add :
  respects comma_to_point Patterns.quick_add /\
  respects comma_to_point Patterns.quick_add_no_qty.
Proof.
  split; cbv [respects Patterns.quick_add Patterns.quick_add_no_qty Patterns.Seq
              Patterns.number Patterns.digit Patterns.space Plus Opt Str Lit Chr
              Text.chars list_ascii_of_string];
    repeat split; intros c; destruct c as [[] [] [] [] [] [] [] []]; reflexivity.
Qed.

Lemma quick_add_fields_replace_comma (full_args : string) :
  quick_add_fields (A:=A) (Text.replace_comma full_args) = quick_add_fields full_args.
Proof.
  unfold quick_add_fields. rewrite lower_replace_comma.
  rewrite !re_match_replace_comma by apply respects_quick_add.
  destruct (re_match Patterns.quick_add _) as [c|]; simpl.
  - rewrite !quantity_of_group_replace_comma. reflexivity.
  - destruct (re_match Patterns.quick_add_no_qty _) as [c|]; simpl; [|reflexivity].
    rewrite !quantity_of_group_replace_comma. reflexivity.
Qed.

End CommaFacts.

(** X10: in a quick add the comma and the point are the same decimal
    separator: when the arguments of [/add] hold no bar, [add_food]
    gives the same answer and the same state for the arguments and for
    the arguments with every comma replaced by a point. *)
Theorem quick_add_comma_is_point :
  forall (A : Type) (HA : Number A) (float_of_text : string -> option A)
         (format_0f : A -> string) (args : list string) (clock : Clock) (st : State A),
    Text.has_char "|" (String.concat " " args) = false ->
    add_food float_of_text format_0f (map Text.replace_comma args) clock st
    = add_food float_of_text format_0f args clock st.
Proof.
  intros A HA float_of_text format_0f args clock st Hbar.
  unfold add_food. destruct args as [|a args]; [reflexivity|].
  change (map Text.replace_comma (a :: args))
    with (Text.replace_comma a :: map Text.replace_comma args).
  change (Text.replace_comma a :: map Text.replace_comma args)
    with (map Text.replace_comma (a :: args)).
  destruct (map Text.replace_comma (a :: args)) as [|a' args'] eqn:E; [discriminate E|].
  rewrite <- E. clear E a' args'.
  rewrite concat_replace_comma, has_bar_replace_comma, Hbar.
  rewrite quick_add_fields_replace_comma. reflexivity.
Qed.

(** X10 in use: "/add 30,5g 150,5kcal 10p 5l 8g". *)
Lemma quick_add_comma_is_point_witness :
  add_food (A:=float) Example.no_float Example.no_label
           (map Text.replace_comma ["30,5g"; "150,5kcal"; "10p"; "5l"; "8g"])
           Example.clock (initial Example.FOODS)
  = add_food Example.no_float Example.no_label
             ["30,5g"; "150,5kcal"; "10p"; "5l"; "8g"]
             Example.clock (initial Example.FOODS).
Proof.
  exact (quick_add_comma_is_point float _ Example.no_float Example.no_label
           ["30,5g"; "150,5kcal"; "10p"; "5l"; "8g"] Example.clock (initial Example.FOODS)
           ltac:(vm_compute; reflexivity)).
Defined.

(** ** A unit letter at the head of a food name *)

Section GreedyFacts.
Context {R : Type}.
Implicit Types (k : cursor -> captures -> option R) (c : captures) (x : R).









End GreedyFacts.






Section PrefixUnit.
Context {A : Type} `{Number A}.
Variable STANDARD_UNITS : list (string * A).
Variable get_food_info : string -> option (A * A * A * A).

End PrefixUnit.


(** ** What is left of the goals *)

(** X12: from the state of a fresh process and after any history of
    operations, in exact arithmetic or without undo, [get_remaining]
    returns, key by key, the daily goal (3100, 160, 90, 400) minus the
    sum of the macros of today's entries; a day that has no entry yet
    leaves the goals whole. *)
Theorem remaining_is_goal_minus_entries :
  forall (A : Type) (HA : Number A) STANDARD_UNITS get_food_info float_of_text format_0f
         (ops : list Op) database (clock : Clock),
    ExactCancel A \/ forallb (fun op => negb (is_undo op)) ops = true ->
    let st := run STANDARD_UNITS get_food_info float_of_text format_0f ops
                  (initial database) in
    fst (get_remaining clock st)
    = sub_macros DAILY_GOALS
        (sum_macros (macros <$> entries (day_of (daily_data st) (today clock)))).
Proof.
  intros A HA SU gfi fot f0 ops database clock Hok st.
  pose proof (reachable_consistent SU gfi fot f0 ops database Hok) as Hc.
  fold st in Hc. unfold get_remaining. cbn [fst with_data daily_data].
  rewrite day_of_init_day. f_equal.
  unfold day_of. destruct (daily_data st !! today clock) as [day|] eqn:E.
  - exact (Hc _ _ E).
  - reflexivity.
Qed.

(** X12 in use: after two quick adds and an undo, in exact arithmetic. *)
Lemma remaining_is_goal_minus_entries_witness :
  fst (get_remaining Example.clock (Example.run (A:=Qc) Example.add_add_undo))
  = sub_macros DAILY_GOALS
      (sum_macros
         (macros <$> entries (day_of (daily_data (Example.run (A:=Qc) Example.add_add_undo))
                                     (today Example.clock)))).
Proof.
  exact (remaining_is_goal_minus_entries Qc _ Example.UNITS Example.lookup_exact
           Example.no_float Example.no_label Example.add_add_undo Example.FOODS
           Example.clock (or_introl Qc_ExactCancel)).
Defined.
